(** * KoryFi chart cache API: a shallow embedding of
      [services/chart-cache-api/main.py]

    The service is a FastAPI application over one SQLite table.  The
    embedding follows the source function by function:

    - the table [chart_cache] is a list of rows, and the two SQL statements
      of the handlers are functions on that list;
    - a handler is a computation in a state-and-exception monad [M] over a
      [world]: the table, the trace of what was done on database
      connections, and the wall clock read by [time.time()];
    - what FastAPI does around a handler because of its decorator and its
      parameter annotations (parsing the query parameter [year], validating
      the request body against [ChartPayload], validating the returned
      value against [response_model]) is the endpoint layer, [GET_charts]
      and [PUT_charts];
    - the library functions whose code is not in the repository
      ([json.loads], [BaseModel.model_dump_json], pydantic's coercion of a
      scalar to [int] and to [float]) and the type of Python floats are
      parameters of the development, the class [Library]; the module
      [Reference] gives one instance of it, the reader of [json] and the
      writer of pydantic, with the proof of what the reader reads back
      from what the writer writes: the value, with [null] where a float
      is not finite.  The properties that rest on that round trip are
      stated on this instance; all the others hold for every instance.

    Python integers are [Z] and Python strings are [string].  The year of a
    request is any integer; SQLite stores integers of 64 bits, and
    [sqlite3] raises [OverflowError] when it is asked to bind another. *)

From Stdlib Require Import ZArith Ascii String List DecimalString DecimalZ DecimalPos.
From stdpp Require Import base tactics option list strings gmap.

Set Warnings "-register-all".

Local Open Scope Z_scope.
Local Open Scope string_scope.

(** ** The durable store *)

(** One row of [chart_cache], with the columns of [init_db]'s schema. *)
Record row : Type := Row {
  basket_id : string;
  year : Z;
  payload : string;
  updated_at_ms : Z
}.

(** The primary key [(basket_id, year)]. *)
Abbreviation key := (string * Z)%type.

Definition key_of (r : row) : key := (basket_id r, year r).

Abbreviation table := (list row).

Definition keys (t : table) : list key := map key_of t.

(** [WHERE basket_id = ? AND year = ?], and the conflict test of the
    upsert. *)
Definition has_key (k : key) (r : row) : bool := bool_decide (key_of r = k).

(** [... FROM chart_cache WHERE basket_id = ? AND year = ?] followed by
    [fetchone()]: the first matching row, if any. *)
Fixpoint fetchone (k : key) (t : table) : option row :=
  match t with
  | [] => None
  | r :: t' => if has_key k r then Some r else fetchone k t'
  end.

(** [DO UPDATE SET payload = excluded.payload,
                   updated_at_ms = excluded.updated_at_ms]. *)
Definition do_update (excluded old : row) : row :=
  {| basket_id := basket_id old;
     year := year old;
     payload := payload excluded;
     updated_at_ms := updated_at_ms excluded |}.

(** [INSERT INTO chart_cache ... VALUES (?, ?, ?, ?)
     ON CONFLICT(basket_id, year) DO UPDATE SET ...]: the row that has the
    key of the new one is updated where it stands; without such a row the
    new one is added. *)
Fixpoint insert_on_conflict_update (new : row) (t : table) : table :=
  match t with
  | [] => [new]
  | r :: t' =>
      if has_key (key_of new) r then do_update new r :: t'
      else r :: insert_on_conflict_update new t'
  end.

(** The statements the service sends to SQLite. *)
Inductive statement : Type :=
| CreateTableIfNotExists
| SelectPayload (k : key)
| InsertOnConflictUpdate (new : row).

(** What happens on a database connection. *)
Inductive db_event : Type :=
| Connect
| Execute (s : statement)
| Commit
| Close.

(** The state around the process: the table of the database file ([None]
    until it is created), the trace of database events, oldest first, and
    the wall clock in milliseconds, that is [int(time.time() * 1000)], a
    count that fits 64 bits on every machine. *)
Record world : Type := World {
  chart_cache : option table;
  db_trace : list db_event;
  clock_ms : Z
}.

(** ** Exceptions and the handler monad *)

Inductive exn : Type :=
| HTTPException (status_code : Z) (detail : string)
| RequestValidationError
| ResponseValidationError
| OperationalError
| OverflowError.

(** The status FastAPI answers with: an [HTTPException] carries its own,
    a request that fails validation is answered 422, and an exception
    nobody handles is answered 500. *)
Definition status_of (e : exn) : Z :=
  match e with
  | HTTPException status_code _ => status_code
  | RequestValidationError => 422
  | ResponseValidationError => 500
  | OperationalError => 500
  | OverflowError => 500
  end.

Inductive outcome (A : Type) : Type :=
| Return (a : A)
| Raise (e : exn).
Arguments Return {A} a.
Arguments Raise {A} e.

Definition http_status {A : Type} (o : outcome A) : Z :=
  match o with
  | Return _ => 200
  | Raise e => status_of e
  end.

Definition M (A : Type) : Type := world -> outcome A * world.

Definition ret {A : Type} (a : A) : M A := fun w => (Return a, w).

Definition raise {A : Type} (e : exn) : M A := fun w => (Raise e, w).

Definition bind {A B : Type} (m : M A) (k : A -> M B) : M B :=
  fun w =>
    match m w with
    | (Return a, w') => k a w'
    | (Raise e, w') => (Raise e, w')
    end.

Declare Scope py_scope.
Delimit Scope py_scope with py.
Notation "x <- m ;; k" := (bind m (fun x => k))
  (at level 100, m at next level, right associativity) : py_scope.
Notation "m ;;; k" := (bind m (fun _ => k))
  (at level 100, right associativity) : py_scope.
Local Open Scope py_scope.

(** ** Database access *)

Definition log_event (e : db_event) : M unit :=
  fun w =>
    (Return tt,
     {| chart_cache := chart_cache w;
        db_trace := db_trace w ++ [e];
        clock_ms := clock_ms w |}).

Definition set_table (t : table) : M unit :=
  fun w =>
    (Return tt,
     {| chart_cache := Some t;
        db_trace := db_trace w;
        clock_ms := clock_ms w |}).

(** The table a statement works on; without it SQLite reports "no such
    table". *)
Definition the_table : M table :=
  fun w =>
    match chart_cache w with
    | Some t => (Return t, w)
    | None => (Raise OperationalError, w)
    end.

(** [with get_conn() as conn: body]: the connection is closed on every way
    out of the body ([try: yield conn / finally: conn.close()]). *)
Definition get_conn {A : Type} (body : M A) : M A :=
  fun w =>
    match (log_event Connect ;;; body) w with
    | (o, w') => (o, snd (log_event Close w'))
    end.

Definition execute_create : M unit :=
  log_event (Execute CreateTableIfNotExists) ;;;
  fun w =>
    match chart_cache w with
    | Some _ => (Return tt, w)
    | None => set_table [] w
    end.

(** The integers SQLite stores: those of 64 bits, with their sign. *)
Definition fits_int64 (n : Z) : bool :=
  bool_decide (-9223372036854775808 <= n <= 9223372036854775807).

(** The year a request gives is bound to a parameter [?] of the
    statement.  [sqlite3] prepares the statement first, which is where a
    missing table is reported, and binds the parameters next: for a
    Python integer that does not fit 64 bits it raises [OverflowError],
    and the statement does not run. *)
Definition bind_year (n : Z) : M unit :=
  if fits_int64 n then ret tt else raise OverflowError.

(** The statement [SELECT payload ...] and [fetchone()]: the column
    [payload] of the row found. *)
Definition execute_select (k : key) : M (option string) :=
  log_event (Execute (SelectPayload k)) ;;;
  t <- the_table ;;
  bind_year (snd k) ;;;
  ret (payload <$> fetchone k t).

(** The statement [INSERT ... ON CONFLICT ... DO UPDATE].  The time
    written to [updated_at_ms] is read from the clock of the machine
    and fits 64 bits; the year comes with the request. *)
Definition execute_upsert (new : row) : M unit :=
  log_event (Execute (InsertOnConflictUpdate new)) ;;;
  t <- the_table ;;
  bind_year (year new) ;;;
  set_table (insert_on_conflict_update new t).

Definition commit : M unit := log_event Commit.

(** [int(time.time() * 1000)]. *)
Definition time_ms : M Z := fun w => (Return (clock_ms w), w).

Definition init_db : M unit :=
  get_conn (execute_create ;;; commit).

Definition on_startup : M unit := init_db.

(** The world with more events on its trace, and with another table. *)
Definition traced (es : list db_event) (w : world) : world :=
  {| chart_cache := chart_cache w;
     db_trace := db_trace w ++ es;
     clock_ms := clock_ms w |}.

Definition with_table (t : table) (w : world) : world :=
  {| chart_cache := Some t;
     db_trace := db_trace w;
     clock_ms := clock_ms w |}.

(** ** The application *)

Section Values.

(** Python's [float]: an IEEE double, of which the service only stores,
    serialises and compares values. *)
Context {float : Type}.

(** A value as [json.loads] builds it and as FastAPI hands a decoded body
    to pydantic.  A [PDict] lists the items of a Python dict in insertion
    order; the keys of a dict are distinct, and [dict_get] reads the first
    item that has the key. *)
Inductive pyval : Type :=
| PNone
| PBool (b : bool)
| PInt (n : Z)
| PFloat (x : float)
| PStr (s : string)
| PList (l : list pyval)
| PDict (items : list (string * pyval)).

Fixpoint dict_get (k : string) (items : list (string * pyval)) : option pyval :=
  match items with
  | [] => None
  | (k', v) :: items' => if bool_decide (k' = k) then Some v else dict_get k items'
  end.

(** [class ChartPoint(BaseModel)]. *)
Record ChartPoint : Type := {
  timestamp : Z;
  prices : gmap string float
}.

(** [class ChartPayload(BaseModel)]. *)
Record ChartPayload : Type := {
  basketId : string;
  data : list ChartPoint
}.

End Values.

Arguments pyval float : clear implicits.
Arguments ChartPoint float : clear implicits.
Arguments ChartPayload float : clear implicits.

(** The library, as far as the service uses it: pydantic's validators of
    the annotations [int] and [float] (in its default mode they accept more
    than the exact type, a numeric string for instance),
    [ChartPayload.model_dump_json] and [json.loads] ([None] where it
    raises). *)
Class Library (float : Type) : Type := {
  validate_int : pyval float -> option Z;
  validate_float : pyval float -> option float;
  model_dump_json : ChartPayload float -> string;
  json_loads : string -> option (pyval float)
}.

(** The environment of the process, read once:
    [DB_PATH = os.getenv("CHART_CACHE_DB_PATH", "./chart_cache.db")] and
    [API_KEY = os.getenv("CHART_CACHE_API_KEY")].  The table of the [world]
    is the one of the file at [DB_PATH]. *)
Class Environment : Type := {
  DB_PATH : string;
  API_KEY : option string
}.

Section ChartCacheApi.

Context {float : Type} {lib : Library float} {env : Environment}.

Local Abbreviation pyval := (pyval float).
Local Abbreviation ChartPoint := (ChartPoint float).
Local Abbreviation ChartPayload := (ChartPayload float).

(** *** Validation against the models *)

(** The annotation [str] accepts a string and nothing else that JSON can
    carry. *)
Definition validate_str (v : pyval) : option string :=
  match v with
  | PStr s => Some s
  | _ => None
  end.

(** [Dict[str, float]]. *)
Definition validate_prices (v : pyval) : option (gmap string float) :=
  match v with
  | PDict items =>
      list_to_map <$> mapM (fun kv => pair (fst kv) <$> validate_float (snd kv)) items
  | _ => None
  end.

(** A model is built from a dict that has its fields; the other items of
    the dict are ignored, which is pydantic's default. *)
Definition validate_ChartPoint (v : pyval) : option ChartPoint :=
  match v with
  | PDict items =>
      t ← dict_get "timestamp" items ≫= validate_int;
      p ← dict_get "prices" items ≫= validate_prices;
      Some {| timestamp := t; prices := p |}
  | _ => None
  end.

(** [List[ChartPoint]]. *)
Definition validate_data (v : pyval) : option (list ChartPoint) :=
  match v with
  | PList l => mapM validate_ChartPoint l
  | _ => None
  end.

Definition validate_ChartPayload (v : pyval) : option ChartPayload :=
  match v with
  | PDict items =>
      b ← dict_get "basketId" items ≫= validate_str;
      d ← dict_get "data" items ≫= validate_data;
      Some {| basketId := b; data := d |}
  | _ => None
  end.

(** *** The value a model serialises to *)

Definition dump_prices (p : gmap string float) : pyval :=
  PDict (prod_map id PFloat <$> map_to_list p).

Definition dump_ChartPoint (p : ChartPoint) : pyval :=
  PDict [("timestamp", PInt (timestamp p)); ("prices", dump_prices (prices p))].

(** [ChartPayload.model_dump(mode="json")]: a dict with the fields of the
    model, and of the model's points, and nothing else. *)
Definition model_dump (p : ChartPayload) : pyval :=
  PDict [("basketId", PStr (basketId p));
         ("data", PList (dump_ChartPoint <$> data p))].

(** *** The authorization gate *)

(** [not API_KEY]. *)
Definition not_ (s : option string) : bool :=
  match s with
  | None => true
  | Some s => bool_decide (s = "")
  end.

Definition require_api_key (x_api_key : option string) : M unit :=
  if not_ API_KEY then ret tt
  else if bool_decide (x_api_key ≠ API_KEY) then
    raise (HTTPException 401 "Unauthorized")
  else ret tt.

(** *** The handlers *)

Record health_result : Type := { health_ok : bool; ts : Z }.

Definition health : M health_result :=
  now_ms <- time_ms ;;
  ret {| health_ok := true; ts := now_ms |}.

Definition get_chart (basket_id : string) (year : Z)
    (x_api_key : option string) : M pyval :=
  require_api_key x_api_key ;;;
  row <- get_conn (execute_select (basket_id, year)) ;;
  match row with
  | None => raise (HTTPException 404 "Not found")
  | Some text =>
      match json_loads text with
      | None => raise (HTTPException 500 "Corrupted payload")
      | Some payload => ret payload
      end
  end.

Record upsert_result : Type := { ok : bool; updatedAtMs : Z }.

Definition upsert_chart (basket_id : string) (year : Z)
    (payload : ChartPayload) (x_api_key : option string) : M upsert_result :=
  require_api_key x_api_key ;;;
  if bool_decide (basketId payload ≠ basket_id) then
    raise (HTTPException 400 "basketId mismatch")
  else
    now_ms <- time_ms ;;
    get_conn
      (execute_upsert (Row basket_id year (model_dump_json payload) now_ms) ;;;
       commit) ;;;
    ret {| ok := true; updatedAtMs := now_ms |}.

(** *** The endpoints *)

(** A request to [GET /charts/{basket_id}]: the path segment, the query
    parameter [year] ([None] when it is missing or is not an integer) and
    the header [X-Api-Key]. *)
Record get_request : Type := {
  get_basket_id : string;
  get_year : option Z;
  get_x_api_key : option string
}.

(** A request to [PUT /charts/{basket_id}]; the body is the decoded JSON
    document ([None] when there is none or it is not JSON). *)
Record put_request : Type := {
  put_basket_id : string;
  put_year : option Z;
  put_x_api_key : option string;
  put_body : option pyval
}.

(** [@app.get("/charts/{basket_id}", response_model=ChartPayload)]: the
    parameters are validated, the handler is called, and what it returns
    is validated against the response model. *)
Definition GET_charts (rq : get_request) : M ChartPayload :=
  match get_year rq with
  | None => raise RequestValidationError
  | Some year =>
      payload <- get_chart (get_basket_id rq) year (get_x_api_key rq) ;;
      match validate_ChartPayload payload with
      | None => raise ResponseValidationError
      | Some p => ret p
      end
  end.

(** [@app.put("/charts/{basket_id}")]: the parameters, the body among them,
    are validated, then the handler is called. *)
Definition PUT_charts (rq : put_request) : M upsert_result :=
  match put_year rq, put_body rq ≫= validate_ChartPayload with
  | Some year, Some payload =>
      upsert_chart (put_basket_id rq) year payload (put_x_api_key rq)
  | _, _ => raise RequestValidationError
  end.

(** *** Runs of the service *)

(** What happens to the world between two requests, and the requests. *)
Inductive event : Type :=
| Tick (now_ms : Z)
| Health
| Get (rq : get_request)
| Put (rq : put_request).

Definition set_clock (now_ms : Z) (w : world) : world :=
  {| chart_cache := chart_cache w;
     db_trace := db_trace w;
     clock_ms := now_ms |}.

Definition step (w : world) (e : event) : world :=
  match e with
  | Tick now_ms => set_clock now_ms w
  | Health => snd (health w)
  | Get rq => snd (GET_charts rq w)
  | Put rq => snd (PUT_charts rq w)
  end.

Definition run (es : list event) (w : world) : world := fold_left step es w.

(** A database file that does not exist yet, and the world once the
    process has started on it. *)
Definition fresh (now_ms : Z) : world :=
  {| chart_cache := None; db_trace := []; clock_ms := now_ms |}.

Definition started (now_ms : Z) : world := snd (on_startup (fresh now_ms)).

(** A request to write the key. *)
Definition writes_to (k : key) (e : event) : Prop :=
  match e with
  | Put rq => put_basket_id rq = fst k /\ put_year rq = Some (snd k)
  | _ => False
  end.

(** The row the store holds for a key.  A column of SQLite's type
    INTEGER holds a 64-bit integer, so there is none for a year that
    does not fit. *)
Definition stored (k : key) (w : world) : option row :=
  if fits_int64 (snd k) then chart_cache w ≫= fetchone k else None.

(** The request writes the key: it is a PUT for the key, and the
    service answers it 200. *)
Definition writes (k : key) (w : world) (e : event) : Prop :=
  match e with
  | Put rq => writes_to k e /\ exists res, fst (PUT_charts rq w) = Return res
  | _ => False
  end.

(** No request of the run writes the key. *)
Fixpoint unwritten (k : key) (es : list event) (w : world) : Prop :=
  match es with
  | [] => True
  | e :: es' => ~ writes k w e /\ unwritten k es' (step w e)
  end.

(** The gate lets the credential through. *)
Definition accepts (x_api_key : option string) : Prop :=
  not_ API_KEY = true \/ x_api_key = API_KEY.

(** Two decoded bodies that differ at most in what the models do not
    name: items of the document other than [basketId] and [data], and
    items of a point other than [timestamp] and [prices]. *)
Definition same_point (v v' : pyval) : Prop :=
  match v, v' with
  | PDict items, PDict items' =>
      dict_get "timestamp" items = dict_get "timestamp" items' /\
      dict_get "prices" items = dict_get "prices" items'
  | _, _ => v = v'
  end.

Definition same_data (v v' : option pyval) : Prop :=
  match v, v' with
  | Some (PList l), Some (PList l') => Forall2 same_point l l'
  | _, _ => v = v'
  end.

Definition same_body (v v' : pyval) : Prop :=
  match v, v' with
  | PDict items, PDict items' =>
      dict_get "basketId" items = dict_get "basketId" items' /\
      same_data (dict_get "data" items) (dict_get "data" items')
  | _, _ => v = v'
  end.

Definition with_body (body : pyval) (rq : put_request) : put_request :=
  {| put_basket_id := put_basket_id rq;
     put_year := put_year rq;
     put_x_api_key := put_x_api_key rq;
     put_body := Some body |}.

(** The validators of [int] and [float] accept a value of the exact type
    as it is. *)
Definition exact_scalars : Prop :=
  (forall n, validate_int (PInt n) = Some n) /\
  (forall x, validate_float (PFloat x) = Some x).

End ChartCacheApi.

Arguments put_request float : clear implicits.
Arguments event float : clear implicits.

(** ** What a trace and a run show *)

(** The trace is a sequence of connections, each opened, used for
    statements and commits, and closed; [connected] tells whether one is
    open where the trace starts. *)
Fixpoint bracketed (connected : bool) (tr : list db_event) : bool :=
  match tr with
  | [] => negb connected
  | Connect :: tr' => negb connected && bracketed true tr'
  | Close :: tr' => connected && bracketed false tr'
  | Execute _ :: tr' => connected && bracketed connected tr'
  | Commit :: tr' => connected && bracketed connected tr'
  end.

(** The events of a run that are neither a read nor a health check. *)
Definition mutates {float : Type} (e : event float) : bool :=
  match e with
  | Tick _ => true
  | Put _ => true
  | Health => false
  | Get _ => false
  end.

(** What the read endpoint answers for the row of the key, once the
    parameters are validated and the gate is passed. *)
Definition answer_of_row {float : Type} {lib : Library float}
    (r : option row) : outcome (ChartPayload float) :=
  match r with
  | None => Raise (HTTPException 404 "Not found")
  | Some r =>
      match json_loads (payload r) with
      | None => Raise (HTTPException 500 "Corrupted payload")
      | Some v =>
          match validate_ChartPayload v with
          | None => Raise ResponseValidationError
          | Some p => Return p
          end
      end
  end.

(** ** A reference library

    An instance of [Library] on which the statements below are evaluated:
    the reader of [json], the writer of pydantic and validators that
    accept the exact type and an integer where a float is expected.  A
    finite float is written and read as a decimal number, mantissa and
    exponent of ten, which stands for the double it denotes.  A float
    that is not finite (an infinity, or not a number) is a valid price,
    and pydantic writes it as [null].  The reader reads every text the
    writer writes; of what [json] reads beyond that, the escape [\u] and
    the words [NaN] and [Infinity] are left out. *)

Module Reference.

(** A float: a finite one by the decimal number that denotes it, or one of
    the values that are not finite, which the validation of a body lets
    through (a number too large for a double is read as an infinity). *)
Inductive decimal : Type :=
| Decimal (mantissa exponent : Z)
| Infinite (negative : bool)
| NotANumber.

Definition finite (x : decimal) : bool :=
  match x with
  | Decimal _ _ => true
  | _ => false
  end.

Definition quote : ascii := "034"%char.
Definition backslash : ascii := "092"%char.

Definition show_Z (n : Z) : string := NilZero.string_of_int (Z.to_int n).

(** [model_dump_json] writes a float that is not finite as [null]. *)
Definition show_decimal (x : decimal) : string :=
  match x with
  | Decimal mantissa exponent => show_Z mantissa ++ "e" ++ show_Z exponent
  | _ => "null"
  end.

Fixpoint escape (s : string) : string :=
  match s with
  | EmptyString => EmptyString
  | String c s' =>
      if bool_decide (c = quote \/ c = backslash)
      then String backslash (String c (escape s'))
      else String c (escape s')
  end.

Definition show_str (s : string) : string :=
  String quote (escape s ++ String quote EmptyString).

Fixpoint json_dumps (v : pyval decimal) : string :=
  match v with
  | PNone => "null"
  | PBool true => "true"
  | PBool false => "false"
  | PInt n => show_Z n
  | PFloat x => show_decimal x
  | PStr s => show_str s
  | PList l =>
      "[" ++
      (fix elements (l : list (pyval decimal)) : string :=
         match l with
         | [] => ""
         | [v] => json_dumps v
         | v :: l' => json_dumps v ++ "," ++ elements l'
         end) l ++ "]"
  | PDict items =>
      "{" ++
      (fix members (l : list (string * pyval decimal)) : string :=
         match l with
         | [] => ""
         | [(k, v)] => show_str k ++ ":" ++ json_dumps v
         | (k, v) :: l' => show_str k ++ ":" ++ json_dumps v ++ "," ++ members l'
         end) items ++ "}"
  end.

(** The texts of the elements of a list and of the members of a dict, as
    [json_dumps] writes them between the brackets. *)
Fixpoint dump_elements (l : list (pyval decimal)) : string :=
  match l with
  | [] => ""
  | [v] => json_dumps v
  | v :: l' => json_dumps v ++ "," ++ dump_elements l'
  end.

Fixpoint dump_members (l : list (string * pyval decimal)) : string :=
  match l with
  | [] => ""
  | [(k, v)] => show_str k ++ ":" ++ json_dumps v
  | (k, v) :: l' => show_str k ++ ":" ++ json_dumps v ++ "," ++ dump_members l'
  end.

Definition is_space (c : ascii) : bool :=
  bool_decide (c = " "%char \/ c = "009"%char \/ c = "010"%char \/ c = "013"%char).

Fixpoint skip_space (s : string) : string :=
  match s with
  | String c s' => if is_space c then skip_space s' else s
  | EmptyString => s
  end.

Definition digit_of (c : ascii) : option (Decimal.uint -> Decimal.uint) :=
  match c with
  | "0" => Some Decimal.D0
  | "1" => Some Decimal.D1
  | "2" => Some Decimal.D2
  | "3" => Some Decimal.D3
  | "4" => Some Decimal.D4
  | "5" => Some Decimal.D5
  | "6" => Some Decimal.D6
  | "7" => Some Decimal.D7
  | "8" => Some Decimal.D8
  | "9" => Some Decimal.D9
  | _ => None
  end%char.

(** The digits at the head of the text, and the text behind them. *)
Fixpoint read_digits (s : string) : Decimal.uint * string :=
  match s with
  | String c s' =>
      match digit_of c with
      | Some digit => let '(d, rest) := read_digits s' in (digit d, rest)
      | None => (Decimal.Nil, s)
      end
  | EmptyString => (Decimal.Nil, s)
  end.

Definition no_digits (d : Decimal.uint) : bool :=
  match d with
  | Decimal.Nil => true
  | _ => false
  end.

Definition read_sign (s : string) : bool * string :=
  match s with
  | String "-"%char s' => (true, s')
  | _ => (false, s)
  end.

Definition signed (negative : bool) (d : Decimal.uint) : Z :=
  Z.of_int (if negative then Decimal.Neg d else Decimal.Pos d).

(** The fraction of a number, if it has one. *)
Definition read_fraction (s : string) : option (Decimal.uint * string) :=
  match s with
  | String "."%char s' =>
      let '(d, rest) := read_digits s' in
      if no_digits d then None else Some (d, rest)
  | _ => Some (Decimal.Nil, s)
  end.

Definition read_exponent_sign (s : string) : bool * string :=
  match s with
  | String "+"%char s' => (false, s')
  | _ => read_sign s
  end.

(** The exponent of a number, if it has one. *)
Definition read_exponent (s : string) : option (option Z * string) :=
  match s with
  | String c s' =>
      if bool_decide (c = "e"%char \/ c = "E"%char) then
        let '(negative, s1) := read_exponent_sign s' in
        let '(d, rest) := read_digits s1 in
        if no_digits d then None else Some (Some (signed negative d), rest)
      else Some (None, s)
  | EmptyString => Some (None, s)
  end.

(** A JSON number: an integer when it has neither fraction nor exponent,
    as [json.loads] decides, and a float otherwise. *)
Definition read_number (s : string) : option (pyval decimal * string) :=
  let '(negative, s1) := read_sign s in
  let '(d, s2) := read_digits s1 in
  if no_digits d then None else
  '(fraction, s3) ← read_fraction s2;
  '(e, rest) ← read_exponent s3;
  match fraction, e with
  | Decimal.Nil, None => Some (PInt (signed negative d), rest)
  | Decimal.Nil, Some e => Some (PFloat (Decimal (signed negative d) e), rest)
  | _, _ =>
      Some (PFloat (Decimal (signed negative (Decimal.app d fraction))
                            (default 0 e - Z.of_nat (Decimal.nb_digits fraction))),
            rest)
  end.

(** The text of a string after its opening quote; an escape [\u] is not
    read. *)
Fixpoint read_str (s : string) : option (string * string) :=
  match s with
  | EmptyString => None
  | String c s' =>
      if bool_decide (c = quote) then Some (EmptyString, s')
      else if bool_decide (c = backslash) then
        match s' with
        | String e s'' =>
            c' ← (if bool_decide (e = quote \/ e = backslash \/ e = "/"%char) then Some e
                  else if bool_decide (e = "n"%char) then Some "010"%char
                  else if bool_decide (e = "t"%char) then Some "009"%char
                  else if bool_decide (e = "r"%char) then Some "013"%char
                  else if bool_decide (e = "b"%char) then Some "008"%char
                  else if bool_decide (e = "f"%char) then Some "012"%char
                  else None);
            '(text, rest) ← read_str s'';
            Some (String c' text, rest)
        | EmptyString => None
        end
      else
        '(text, rest) ← read_str s';
        Some (String c text, rest)
  end.

(** The text behind a word the text starts with. *)
Fixpoint strip_prefix (word s : string) : option string :=
  match word with
  | EmptyString => Some s
  | String c word' =>
      match s with
      | String c' s' => if bool_decide (c = c') then strip_prefix word' s' else None
      | EmptyString => None
      end
  end.

Definition read_word (word : string) (v : pyval decimal) (s : string) :
    option (pyval decimal * string) :=
  rest ← strip_prefix word s;
  Some (v, rest).

(** [d[k] = v]: a key that is there keeps its place and takes the value. *)
Fixpoint dict_set (k : string) (v : pyval decimal)
    (items : list (string * pyval decimal)) : list (string * pyval decimal) :=
  match items with
  | [] => [(k, v)]
  | (k', v') :: items' =>
      if bool_decide (k' = k) then (k, v) :: items'
      else (k', v') :: dict_set k v items'
  end.

(** The dict of the members of an object, read from left to right. *)
Definition as_dict (members : list (string * pyval decimal)) :
    list (string * pyval decimal) :=
  fold_left (fun d kv => dict_set (fst kv) (snd kv) d) members [].

(** The text behind the character [c], when [c] is what comes next after
    white space. *)
Definition expect (c : ascii) (s : string) : option string :=
  match skip_space s with
  | String c' rest => if bool_decide (c' = c) then Some rest else None
  | EmptyString => None
  end.

(** One value at the head of the text, and the text behind it.  The fuel
    bounds the nesting and the number of elements read. *)
Fixpoint read_value (fuel : nat) (s : string) : option (pyval decimal * string) :=
  match fuel with
  | O => None
  | S fuel =>
      match skip_space s with
      | EmptyString => None
      | String c s' =>
          if bool_decide (c = quote) then
            '(text, rest) ← read_str s';
            Some (PStr text, rest)
          else if bool_decide (c = "["%char) then
            match expect "]" s' with
            | Some rest => Some (PList [], rest)
            | None =>
                '(l, rest) ← read_elements fuel s';
                Some (PList l, rest)
            end
          else if bool_decide (c = "{"%char) then
            match expect "}" s' with
            | Some rest => Some (PDict [], rest)
            | None =>
                '(members, rest) ← read_members fuel s';
                Some (PDict (as_dict members), rest)
            end
          else if bool_decide (c = "n"%char) then read_word "null" PNone (String c s')
          else if bool_decide (c = "t"%char) then read_word "true" (PBool true) (String c s')
          else if bool_decide (c = "f"%char) then read_word "false" (PBool false) (String c s')
          else read_number (String c s')
      end
  end
with read_elements (fuel : nat) (s : string) : option (list (pyval decimal) * string) :=
  match fuel with
  | O => None
  | S fuel =>
      '(v, s1) ← read_value fuel s;
      match expect "]" s1 with
      | Some rest => Some ([v], rest)
      | None =>
          s2 ← expect "," s1;
          '(l, rest) ← read_elements fuel s2;
          Some (v :: l, rest)
      end
  end
with read_members (fuel : nat) (s : string) :
    option (list (string * pyval decimal) * string) :=
  match fuel with
  | O => None
  | S fuel =>
      s0 ← expect quote s;
      '(k, s1) ← read_str s0;
      s2 ← expect ":" s1;
      '(v, s3) ← read_value fuel s2;
      match expect "}" s3 with
      | Some rest => Some ([(k, v)], rest)
      | None =>
          s4 ← expect "," s3;
          '(members, rest) ← read_members fuel s4;
          Some ((k, v) :: members, rest)
      end
  end.

Definition loads (s : string) : option (pyval decimal) :=
  '(v, rest) ← read_value (S (String.length s)) s;
  if bool_decide (skip_space rest = EmptyString) then Some v else None.

Definition dumps (p : ChartPayload decimal) : string := json_dumps (model_dump p).

(** The value read back from the text of a value: a float that is not
    finite has become [None]. *)
Fixpoint nullify (v : pyval decimal) : pyval decimal :=
  match v with
  | PFloat x => if finite x then v else PNone
  | PList l => PList (map nullify l)
  | PDict items => PDict (map (fun '(k, v) => (k, nullify v)) items)
  | _ => v
  end.

(** Every price of the payload is finite. *)
Definition finite_prices (p : ChartPayload decimal) : Prop :=
  Forall (fun point => map_Forall (fun _ x => finite x = true) (prices point))
         (data p).

(** The values that are Python values: the keys of a dict are distinct. *)
Inductive well_formed : pyval decimal -> Prop :=
| wf_none : well_formed PNone
| wf_bool b : well_formed (PBool b)
| wf_int n : well_formed (PInt n)
| wf_float x : well_formed (PFloat x)
| wf_str s : well_formed (PStr s)
| wf_list l : Forall well_formed l -> well_formed (PList l)
| wf_dict items :
    NoDup items.*1 -> Forall (fun kv => well_formed (snd kv)) items ->
    well_formed (PDict items).

(** What may follow a value in a JSON text, and what a value starts
    with. *)
Definition no_digit_ahead (rest : string) : Prop :=
  match rest with
  | EmptyString => True
  | String c _ => digit_of c = None
  end.

Definition value_ahead (s : string) : Prop :=
  match s with
  | EmptyString => False
  | String c _ => is_space c = false /\ c ≠ "]"%char /\ c ≠ "}"%char
  end.

Definition delimited (rest : string) : Prop :=
  match rest with
  | EmptyString => True
  | String c _ => c = ","%char \/ c = "]"%char \/ c = "}"%char
  end.

Definition as_int (v : pyval decimal) : option Z :=
  match v with
  | PInt n => Some n
  | _ => None
  end.

Definition as_float (v : pyval decimal) : option decimal :=
  match v with
  | PFloat x => Some x
  | PInt n => Some (Decimal n 0)
  | _ => None
  end.

Definition library : Library decimal :=
  {| validate_int := as_int;
     validate_float := as_float;
     model_dump_json := dumps;
     json_loads := loads |}.

(** The service with and without a secret. *)
Definition locked : Environment :=
  {| DB_PATH := "./chart_cache.db"; API_KEY := Some "s3cret" |}.
Definition open : Environment :=
  {| DB_PATH := "./chart_cache.db"; API_KEY := None |}.

(** The payload of the example scenario. *)
Definition tech5 : ChartPayload decimal :=
  {| basketId := "tech-5";
     data := [ {| timestamp := 1700000000000;
                  prices := <["AAPL" := Decimal 1905 (-1)]>
                              (<["MSFT" := Decimal 4102 (-1)]> ∅) |} ] |}.

(** A payload with a price beyond the largest double, as a body with
    the number [1e400] validates to. *)
Definition overflowing : ChartPayload decimal :=
  {| basketId := "tech-5";
     data := [ {| timestamp := 1700000000000;
                  prices := <["AAPL" := Infinite false]> ∅ |} ] |}.

End Reference.

(** ** Facts about the store *)

Section StoreFacts.

Implicit Types (t : table) (r new : row) (k : key).

Lemma has_key_true k r : has_key k r = true <-> key_of r = k.
Proof. unfold has_key. apply bool_decide_eq_true. Qed.

Lemma has_key_false k r : has_key k r = false <-> key_of r ≠ k.
Proof. unfold has_key. apply bool_decide_eq_false. Qed.

Lemma do_update_same_key new r : key_of r = key_of new -> do_update new r = new.
Proof.
  destruct new, r. unfold key_of, do_update. simpl. intros E.
  injection E as E1 E2. by subst.
Qed.

Lemma key_of_do_update new r : key_of (do_update new r) = key_of r.
Proof. reflexivity. Qed.

(** Reading finds a row that has the key, and only if the table has one. *)
Lemma fetchone_Some k t r : fetchone k t = Some r -> r ∈ t /\ key_of r = k.
Proof.
  induction t as [|r' t IH]; simpl; [done|].
  destruct (has_key k r') eqn:E.
  - intros [= ->]. split; [left | by apply has_key_true].
  - intros H. destruct (IH H). split; [by right | done].
Qed.


(** After the upsert the key reads as the new row. *)
Lemma fetchone_upsert_eq new t :
  fetchone (key_of new) (insert_on_conflict_update new t) = Some new.
Proof.
  induction t as [|r t IH]; simpl.
  - rewrite (proj2 (has_key_true _ _)); done.
  - destruct (has_key (key_of new) r) eqn:E; simpl.
    + rewrite (proj2 (has_key_true _ _)) by (apply has_key_true in E; done).
      f_equal. apply do_update_same_key. by apply has_key_true.
    + by rewrite E.
Qed.

(** The upsert leaves every other key as it reads. *)
Lemma fetchone_upsert_ne new t k :
  k ≠ key_of new ->
  fetchone k (insert_on_conflict_update new t) = fetchone k t.
Proof.
  intros Hk. induction t as [|r t IH]; simpl.
  - rewrite (proj2 (has_key_false _ _)); done.
  - destruct (has_key (key_of new) r) eqn:E; simpl.
    + apply has_key_true in E.
      rewrite !(proj2 (has_key_false k _)); [done | congruence |].
      rewrite key_of_do_update. congruence.
    + by rewrite IH.
Qed.

(** The keys of the table after the upsert: the same where the key was
    there, one more at the end where it was not. *)
Lemma keys_upsert new t :
  keys (insert_on_conflict_update new t) =
  if bool_decide (key_of new ∈ keys t) then keys t else (keys t ++ [key_of new])%list.
Proof.
  induction t as [|r t IH]; simpl; [done|].
  destruct (has_key (key_of new) r) eqn:E; simpl.
  - apply has_key_true in E. rewrite bool_decide_eq_true_2; [done | rewrite E; left].
  - apply has_key_false in E. rewrite IH.
    destruct (decide (key_of new ∈ keys t)) as [Hin|Hin].
    + rewrite !bool_decide_eq_true_2; [done | by right | done].
    + rewrite !bool_decide_eq_false_2; [done | | done].
      rewrite not_elem_of_cons. split; [congruence | done].
Qed.

Lemma NoDup_keys_upsert new t :
  NoDup (keys t) -> NoDup (keys (insert_on_conflict_update new t)).
Proof.
  intros Hnd. rewrite keys_upsert. case_bool_decide as Hin; [done|].
  apply NoDup_app. split_and!; [done | | apply NoDup_singleton].
  intros k Hk Hk'. apply list_elem_of_singleton in Hk'. by subst.
Qed.

(** A second upsert on the key overrides the first. *)
Lemma upsert_upsert new1 new2 t :
  key_of new1 = key_of new2 ->
  insert_on_conflict_update new2 (insert_on_conflict_update new1 t) =
  insert_on_conflict_update new2 t.
Proof.
  intros Hk. induction t as [|r t IH]; simpl.
  - rewrite (proj2 (has_key_true _ _)) by done.
    f_equal. by apply do_update_same_key.
  - rewrite Hk. destruct (has_key (key_of new2) r) eqn:E; simpl.
    + change (has_key (key_of new2) (do_update new1 r))
        with (has_key (key_of new2) r).
      rewrite E. reflexivity.
    + rewrite E. f_equal. exact IH.
Qed.

(** The upsert on a key that is there writes the row where it stands. *)
Lemma upsert_in_place new t i r :
  NoDup (keys t) ->
  t !! i = Some r -> key_of r = key_of new ->
  insert_on_conflict_update new t = <[i := new]> t.
Proof.
  intros Hnd. revert i. induction t as [|r' t IH]; intros i Hi Hr; [done|].
  apply NoDup_cons in Hnd as [Hnotin Hnd]. simpl. destruct i as [|i]; simpl in *.
  - injection Hi as ->. rewrite (proj2 (has_key_true _ _)) by done.
    f_equal. by apply do_update_same_key.
  - rewrite (proj2 (has_key_false _ _)).
    + f_equal. by apply IH.
    + intros E. apply Hnotin. rewrite E, <- Hr.
      apply list_elem_of_fmap. exists r. split; [done|].
      by apply list_elem_of_lookup_2 with i.
Qed.

(** What holds of the new row and of every row it replaces holds of the
    table after the upsert. *)
Lemma Forall_upsert (Q : row -> Prop) (new : row) t :
  Q new -> (forall r, key_of r = key_of new -> Q (do_update new r)) ->
  Forall Q t -> Forall Q (insert_on_conflict_update new t).
Proof.
  intros Hnew Hupd. induction 1 as [|r t Hr Ht IH]; simpl.
  - by constructor.
  - destruct (has_key (key_of new) r) eqn:E.
    + constructor; [|done]. apply Hupd. by apply has_key_true.
    + by constructor.
Qed.

End StoreFacts.

(** ** Facts about the handlers *)

Section HandlerFacts.

Context {float : Type} {lib : Library float} {env : Environment}.

Local Abbreviation pyval := (pyval float).
Local Abbreviation ChartPoint := (ChartPoint float).
Local Abbreviation ChartPayload := (ChartPayload float).

Implicit Types (w : world) (t : table) (x_api_key : option string).

Lemma traced_traced es1 es2 w :
  traced es2 (traced es1 w) = traced (es1 ++ es2) w.
Proof. unfold traced. simpl. by rewrite app_assoc. Qed.

Lemma accepts_dec x_api_key : {accepts x_api_key} + {~ accepts x_api_key}.
Proof.
  unfold accepts. destruct (not_ API_KEY); [left; by left|].
  destruct (decide (x_api_key = API_KEY)); [left; by right|].
  right. intros [?|?]; done.
Qed.

Lemma require_api_key_accepts x_api_key w :
  accepts x_api_key -> require_api_key x_api_key w = (Return tt, w).
Proof.
  unfold accepts, require_api_key. intros [H|H].
  - by rewrite H.
  - destruct (not_ API_KEY); [done|]. by rewrite bool_decide_eq_false_2 by auto.
Qed.

Lemma require_api_key_rejects x_api_key w :
  ~ accepts x_api_key ->
  require_api_key x_api_key w = (Raise (HTTPException 401 "Unauthorized"), w).
Proof.
  unfold accepts, require_api_key. intros H.
  destruct (not_ API_KEY); [by destruct H; left|].
  rewrite bool_decide_eq_true_2; [done|]. intros E. apply H. by right.
Qed.

(** What the read handler does once the gate is passed. *)
Lemma get_chart_accepted basket_id year x_api_key w t :
  accepts x_api_key -> chart_cache w = Some t -> fits_int64 year = true ->
  get_chart basket_id year x_api_key w =
  (match fetchone (basket_id, year) t with
   | None => Raise (HTTPException 404 "Not found")
   | Some r =>
       match json_loads (payload r) with
       | None => Raise (HTTPException 500 "Corrupted payload")
       | Some v => Return v
       end
   end,
   traced [Connect; Execute (SelectPayload (basket_id, year)); Close] w).
Proof.
  intros Ha Ht Hy. unfold get_chart, bind.
  rewrite require_api_key_accepts by done.
  unfold get_conn, execute_select, bind_year, bind, the_table, log_event, ret,
    raise, traced.
  simpl. rewrite !Ht. simpl. rewrite Hy. simpl. rewrite <- !app_assoc. simpl.
  destruct (fetchone (basket_id, year) t) as [r|]; simpl; [|done].
  by destruct (json_loads (payload r)).
Qed.

(** A year that does not fit 64 bits cannot be bound: the statement does
    not run, and the connection is closed. *)
Lemma get_chart_overflow basket_id year x_api_key w t :
  accepts x_api_key -> chart_cache w = Some t -> fits_int64 year = false ->
  get_chart basket_id year x_api_key w =
  (Raise OverflowError,
   traced [Connect; Execute (SelectPayload (basket_id, year)); Close] w).
Proof.
  intros Ha Ht Hy. unfold get_chart, bind.
  rewrite require_api_key_accepts by done.
  unfold get_conn, execute_select, bind_year, bind, the_table, log_event, ret,
    raise, traced.
  simpl. rewrite !Ht. simpl. rewrite Hy. simpl. by rewrite <- !app_assoc.
Qed.

(** What the write handler does once the gate is passed and the
    identifiers agree. *)
Lemma upsert_chart_accepted basket_id year (p : ChartPayload) x_api_key w t :
  accepts x_api_key -> basketId p = basket_id -> chart_cache w = Some t ->
  fits_int64 year = true ->
  let new := Row basket_id year (model_dump_json p) (clock_ms w) in
  upsert_chart basket_id year p x_api_key w =
  (Return {| ok := true; updatedAtMs := clock_ms w |},
   traced [Connect; Execute (InsertOnConflictUpdate new); Commit; Close]
     (with_table (insert_on_conflict_update new t) w)).
Proof.
  intros Ha Hb Ht Hy. unfold upsert_chart, bind.
  rewrite require_api_key_accepts by done.
  rewrite bool_decide_eq_false_2 by auto.
  unfold get_conn, execute_upsert, bind_year, commit, time_ms, bind, the_table,
    set_table, log_event, ret. simpl.
  rewrite Ht. simpl. rewrite Hy. unfold traced, with_table. simpl.
  rewrite <- !app_assoc. done.
Qed.

Lemma upsert_chart_overflow basket_id year (p : ChartPayload) x_api_key w t :
  accepts x_api_key -> basketId p = basket_id -> chart_cache w = Some t ->
  fits_int64 year = false ->
  upsert_chart basket_id year p x_api_key w =
  (Raise OverflowError,
   traced [Connect;
           Execute (InsertOnConflictUpdate
                      (Row basket_id year (model_dump_json p) (clock_ms w)));
           Close] w).
Proof.
  intros Ha Hb Ht Hy. unfold upsert_chart, bind.
  rewrite require_api_key_accepts by done.
  rewrite bool_decide_eq_false_2 by auto.
  unfold get_conn, execute_upsert, bind_year, commit, time_ms, bind, the_table,
    set_table, log_event, ret, raise, traced. simpl.
  rewrite !Ht. simpl. rewrite Hy. simpl. by rewrite <- !app_assoc.
Qed.

Lemma get_chart_rejected basket_id year x_api_key w :
  ~ accepts x_api_key ->
  get_chart basket_id year x_api_key w =
  (Raise (HTTPException 401 "Unauthorized"), w).
Proof.
  intros Ha. unfold get_chart, bind. by rewrite require_api_key_rejects.
Qed.

Lemma upsert_chart_rejected basket_id year (p : ChartPayload) x_api_key w :
  ~ accepts x_api_key ->
  upsert_chart basket_id year p x_api_key w =
  (Raise (HTTPException 401 "Unauthorized"), w).
Proof.
  intros Ha. unfold upsert_chart, bind. by rewrite require_api_key_rejects.
Qed.

Lemma upsert_chart_mismatch basket_id year (p : ChartPayload) x_api_key w :
  accepts x_api_key -> basketId p ≠ basket_id ->
  upsert_chart basket_id year p x_api_key w =
  (Raise (HTTPException 400 "basketId mismatch"), w).
Proof.
  intros Ha Hb. unfold upsert_chart, bind.
  rewrite require_api_key_accepts by done.
  by rewrite bool_decide_eq_true_2.
Qed.

(** Before [init_db] has run SQLite has no table to work on. *)
Lemma get_chart_no_table basket_id year x_api_key w :
  accepts x_api_key -> chart_cache w = None ->
  get_chart basket_id year x_api_key w =
  (Raise OperationalError,
   traced [Connect; Execute (SelectPayload (basket_id, year)); Close] w).
Proof.
  intros Ha Ht. unfold get_chart, bind.
  rewrite require_api_key_accepts by done.
  unfold get_conn, execute_select, bind, the_table, log_event, ret, raise, traced.
  simpl. rewrite !Ht. simpl. by rewrite <- !app_assoc.
Qed.

Lemma upsert_chart_no_table basket_id year (p : ChartPayload) x_api_key w :
  accepts x_api_key -> basketId p = basket_id -> chart_cache w = None ->
  upsert_chart basket_id year p x_api_key w =
  (Raise OperationalError,
   traced [Connect;
           Execute (InsertOnConflictUpdate
                      (Row basket_id year (model_dump_json p) (clock_ms w)));
           Close] w).
Proof.
  intros Ha Hb Ht. unfold upsert_chart, bind.
  rewrite require_api_key_accepts by done.
  rewrite bool_decide_eq_false_2 by auto.
  unfold get_conn, execute_upsert, commit, time_ms, bind, the_table, set_table,
    log_event, ret, traced. simpl.
  rewrite !Ht. simpl. by rewrite <- !app_assoc.
Qed.

(** A write that returns has passed the gate and the comparison of the
    identifiers, has found the table, and has a year that fits. *)
Lemma upsert_chart_returns basket_id year (p : ChartPayload) x_api_key w res w' :
  upsert_chart basket_id year p x_api_key w = (Return res, w') ->
  accepts x_api_key /\ basketId p = basket_id /\ fits_int64 year = true /\
  exists t, chart_cache w = Some t.
Proof.
  intros H. destruct (accepts_dec x_api_key) as [Ha|Ha].
  - destruct (decide (basketId p = basket_id)) as [Hb|Hb].
    + destruct (chart_cache w) as [t|] eqn:Ht.
      * destruct (fits_int64 year) eqn:Hy; [eauto 6|].
        by rewrite (upsert_chart_overflow _ _ _ _ _ t) in H.
      * by rewrite upsert_chart_no_table in H.
    + by rewrite upsert_chart_mismatch in H.
  - by rewrite upsert_chart_rejected in H.
Qed.

(** The table a read leaves is the table it found. *)
Lemma GET_charts_table rq w :
  chart_cache (snd (GET_charts rq w)) = chart_cache w.
Proof.
  unfold GET_charts. destruct (get_year rq) as [year|]; [|done].
  unfold bind. destruct (accepts_dec (get_x_api_key rq)) as [Ha|Ha].
  - destruct (chart_cache w) as [t|] eqn:Ht.
    + destruct (fits_int64 year) eqn:Hy.
      * rewrite (get_chart_accepted _ _ _ _ t) by done.
        destruct (fetchone _ t) as [r|]; [|by simpl].
        destruct (json_loads (payload r)) as [v|]; [|by simpl].
        by destruct (validate_ChartPayload v).
      * by rewrite (get_chart_overflow _ _ _ _ t).
    + by rewrite get_chart_no_table.
  - by rewrite get_chart_rejected.
Qed.

(** The table a write leaves: the one it found, or, when the request is
    answered 200, that one after the upsert of a row on the key of the
    request. *)
Lemma PUT_charts_table rq w :
  chart_cache (snd (PUT_charts rq w)) = chart_cache w \/
  exists year t new res,
    put_year rq = Some year /\ chart_cache w = Some t /\
    fits_int64 year = true /\
    key_of new = (put_basket_id rq, year) /\
    fst (PUT_charts rq w) = Return res /\
    chart_cache (snd (PUT_charts rq w)) = Some (insert_on_conflict_update new t).
Proof.
  unfold PUT_charts. destruct (put_year rq) as [year|]; [|by left].
  destruct (put_body rq ≫= validate_ChartPayload) as [p|]; [|by left].
  destruct (accepts_dec (put_x_api_key rq)) as [Ha|Ha].
  - destruct (decide (basketId p = put_basket_id rq)) as [Hb|Hb].
    + destruct (chart_cache w) as [t|] eqn:Ht.
      * destruct (fits_int64 year) eqn:Hy.
        -- right. eexists year, t, _, _.
           rewrite (upsert_chart_accepted _ _ _ _ _ t) by done.
           split_and!; [done | done | done | | reflexivity | reflexivity].
           reflexivity.
        -- left. by rewrite (upsert_chart_overflow _ _ _ _ _ t).
      * left. by rewrite upsert_chart_no_table.
    + left. by rewrite upsert_chart_mismatch.
  - left. by rewrite upsert_chart_rejected.
Qed.

Lemma started_table now_ms : chart_cache (started now_ms) = Some [].
Proof. reflexivity. Qed.

End HandlerFacts.

(** ** Validation and serialisation of the models *)

Section ModelFacts.

Context {float : Type} {lib : Library float} {env : Environment}.

Local Abbreviation pyval := (pyval float).
Local Abbreviation ChartPoint := (ChartPoint float).
Local Abbreviation ChartPayload := (ChartPayload float).

Lemma mapM_fmap_section {A B : Type} (f : B -> option A) (g : A -> B) (l : list A) :
  (forall a, f (g a) = Some a) -> mapM f (g <$> l) = Some l.
Proof.
  intros Hfg. apply mapM_Some. induction l as [|a l IH]; simpl; constructor; auto.
Qed.

Lemma dict_get_here (k : string) (v : pyval) items :
  dict_get k ((k, v) :: items) = Some v.
Proof. simpl. by rewrite bool_decide_eq_true_2. Qed.

Lemma dict_get_next (k k' : string) (v : pyval) items :
  k' ≠ k -> dict_get k ((k', v) :: items) = dict_get k items.
Proof. intros H. simpl. by rewrite bool_decide_eq_false_2. Qed.

Lemma validate_prices_dump (m : gmap string float) :
  exact_scalars -> validate_prices (dump_prices m) = Some m.
Proof.
  intros [_ Hfloat]. unfold validate_prices, dump_prices.
  rewrite mapM_fmap_section.
  - simpl. f_equal. apply list_to_map_to_list.
  - intros [k x]. simpl. by rewrite Hfloat.
Qed.

Lemma validate_ChartPoint_dump (p : ChartPoint) :
  exact_scalars -> validate_ChartPoint (dump_ChartPoint p) = Some p.
Proof.
  intros Hex. unfold validate_ChartPoint, dump_ChartPoint.
  rewrite dict_get_here, dict_get_next, dict_get_here by done.
  cbn [mbind option_bind]. rewrite (proj1 Hex), validate_prices_dump by done.
  by destruct p.
Qed.

(** Validation reads the value a model serialises to as that model. *)
Lemma validate_model_dump (p : ChartPayload) :
  exact_scalars -> validate_ChartPayload (model_dump p) = Some p.
Proof.
  intros Hex. unfold validate_ChartPayload, model_dump.
  rewrite dict_get_here, dict_get_next, dict_get_here by done.
  cbn [mbind option_bind validate_str validate_data].
  rewrite mapM_fmap_section by (intros; by apply validate_ChartPoint_dump).
  by destruct p.
Qed.

End ModelFacts.

(** ** Facts about runs *)

Section RunFacts.

Context {float : Type} {lib : Library float} {env : Environment}.

Local Abbreviation event := (event float).

Implicit Types (w : world) (t : table) (e : event) (es : list event) (k : key).


Lemma step_table w e :
  chart_cache (step w e) = chart_cache w \/
  exists t new,
    writes (key_of new) w e /\ fits_int64 (year new) = true /\
    chart_cache w = Some t /\
    chart_cache (step w e) = Some (insert_on_conflict_update new t).
Proof.
  destruct e as [now_ms| |rq|rq]; simpl.
  - by left.
  - by left.
  - left. apply GET_charts_table.
  - destruct (PUT_charts_table rq w)
      as [H|(year & t & new & res & Hy & Ht & Hfit & Hk & Hres & H)].
    + by left.
    + right. exists t, new. unfold key_of in Hk. injection Hk as Hb Hyr.
      split_and!; [| | by eauto | by rewrite Hyr | done | exact H].
      * unfold key_of. simpl. by rewrite Hb.
      * unfold key_of. simpl. by rewrite Hyr.
Qed.

(** Every step keeps the table, and keeps its keys distinct. *)
Lemma step_NoDup w e t :
  chart_cache w = Some t -> NoDup (keys t) ->
  exists t', chart_cache (step w e) = Some t' /\ NoDup (keys t').
Proof.
  intros Ht Hnd. destruct (step_table w e) as [H|(t0 & new & _ & _ & Ht0 & H)].
  - exists t. by rewrite H.
  - exists (insert_on_conflict_update new t0). split; [done|].
    apply NoDup_keys_upsert. congruence.
Qed.

Lemma run_NoDup es w t :
  chart_cache w = Some t -> NoDup (keys t) ->
  exists t', chart_cache (run es w) = Some t' /\ NoDup (keys t').
Proof.
  revert w t. induction es as [|e es IH]; intros w t Ht Hnd; simpl.
  - by exists t.
  - destruct (step_NoDup w e t Ht Hnd) as (t' & Ht' & Hnd').
    by apply (IH _ t').
Qed.

(** Every year a run stores fits 64 bits. *)
Lemma run_fits es w t :
  chart_cache w = Some t -> Forall (fun r => fits_int64 (year r) = true) t ->
  exists t', chart_cache (run es w) = Some t' /\
             Forall (fun r => fits_int64 (year r) = true) t'.
Proof.
  revert w t. induction es as [|e es IH]; intros w t Ht Hall; simpl.
  - by exists t.
  - destruct (step_table w e) as [H|(t0 & new & _ & Hfit & Ht0 & H)].
    + apply (IH _ t); [congruence | done].
    + apply (IH _ (insert_on_conflict_update new t0)); [done|].
      apply Forall_upsert; [done | | congruence].
      intros r Hr. unfold key_of in Hr. simpl. congruence.
Qed.

(** A step that does not write the key leaves what the key reads as. *)
Lemma step_fetchone w e k :
  ~ writes k w e ->
  chart_cache (step w e) ≫= fetchone k = chart_cache w ≫= fetchone k.
Proof.
  intros Hw. destruct (step_table w e) as [H|(t & new & Hnew & _ & Ht & H)].
  - by rewrite H.
  - rewrite H, Ht. simpl. apply fetchone_upsert_ne. intros ->. done.
Qed.

Lemma step_stored w e k :
  ~ writes k w e -> stored k (step w e) = stored k w.
Proof. intros Hw. unfold stored. by rewrite step_fetchone. Qed.

Lemma run_fetchone es w k :
  unwritten k es w ->
  chart_cache (run es w) ≫= fetchone k = chart_cache w ≫= fetchone k.
Proof.
  revert w. induction es as [|e es IH]; intros w Hes; simpl; [done|].
  destruct Hes as [He Hes]. rewrite IH by done. by apply step_fetchone.
Qed.

Lemma run_stored es w k :
  unwritten k es w -> stored k (run es w) = stored k w.
Proof. intros Hes. unfold stored. by rewrite run_fetchone. Qed.


End RunFacts.

(** ** The properties of the specification *)

Section Claims.

Context {float : Type} {lib : Library float} {env : Environment}.

Local Abbreviation pyval := (pyval float).
Local Abbreviation ChartPayload := (ChartPayload float).
Local Abbreviation put_request := (put_request float).
Local Abbreviation event := (event float).

Implicit Types (w : world) (t : table) (B : string) (Y : Z) (P : ChartPayload).

(** What the read endpoint answers once the gate is passed, in terms of the
    row of the key. *)
Lemma GET_charts_answer (rq : get_request) Y w t :
  get_year rq = Some Y -> accepts (get_x_api_key rq) -> chart_cache w = Some t ->
  fst (GET_charts rq w) =
  if fits_int64 Y then answer_of_row (fetchone (get_basket_id rq, Y) t)
  else Raise OverflowError.
Proof.
  intros Hy Ha Ht. unfold GET_charts. rewrite Hy. unfold bind.
  destruct (fits_int64 Y) eqn:Hfit.
  - rewrite (get_chart_accepted _ _ _ _ t) by done. unfold answer_of_row.
    destruct (fetchone _ t) as [r|]; [|done].
    destruct (json_loads (payload r)) as [v|]; [|done].
    by destruct (validate_ChartPayload v).
  - by rewrite (get_chart_overflow _ _ _ _ t).
Qed.

Lemma GET_charts_accepted (rq : get_request) Y w t :
  get_year rq = Some Y -> accepts (get_x_api_key rq) -> chart_cache w = Some t ->
  fits_int64 Y = true ->
  fst (GET_charts rq w) =
  match fetchone (get_basket_id rq, Y) t with
  | None => Raise (HTTPException 404 "Not found")
  | Some r =>
      match json_loads (payload r) with
      | None => Raise (HTTPException 500 "Corrupted payload")
      | Some v =>
          match validate_ChartPayload v with
          | None => Raise ResponseValidationError
          | Some p => Return p
          end
      end
  end.
Proof.
  intros Hy Ha Ht Hfit. rewrite (GET_charts_answer rq Y w t) by done.
  by rewrite Hfit.
Qed.

(** A write that is answered 200, and the read of its key that follows:
    the read answers from the text of the model. *)
Lemma read_of_written B Y P (xw xr : option string) w t (later : Z) :
  chart_cache w = Some t -> basketId P = B -> fits_int64 Y = true ->
  accepts xw -> accepts xr ->
  fst (upsert_chart B Y P xw w) =
    Return {| ok := true; updatedAtMs := clock_ms w |} /\
  fst (GET_charts {| get_basket_id := B; get_year := Some Y; get_x_api_key := xr |}
         (set_clock later (snd (upsert_chart B Y P xw w)))) =
  answer_of_row (Some (Row B Y (model_dump_json P) (clock_ms w))).
Proof.
  intros Ht Hb Hfit Haw Har.
  rewrite (upsert_chart_accepted _ _ _ _ _ t) by done. simpl. split; [done|].
  erewrite GET_charts_answer; [| reflexivity | done | reflexivity].
  rewrite Hfit. simpl.
  by rewrite (fetchone_upsert_eq (Row B Y (model_dump_json P) (clock_ms w)) t).
Qed.

(** C2, as the code has it.  Without a secret (unset or empty) every
    credential, a missing one too, is accepted.  With a secret, a
    credential that is missing or differs from it is answered 401
    Unauthorized by the gate and by both handlers, and by both endpoints
    for a request whose parameters validate, the year in the path and for
    a write the body; the world is as it was: no connection to the store
    has been opened.  (A request whose parameters do not validate is
    answered 422 before the gate is asked.) *)
Theorem authorization_gate (x_api_key : option string) w :
  (API_KEY = None \/ API_KEY = Some "" ->
   require_api_key x_api_key w = (Return tt, w)) /\
  (forall secret,
     API_KEY = Some secret -> secret ≠ "" -> x_api_key ≠ Some secret ->
     require_api_key x_api_key w = (Raise (HTTPException 401 "Unauthorized"), w) /\
     (forall B Y,
        get_chart B Y x_api_key w = (Raise (HTTPException 401 "Unauthorized"), w) /\
        GET_charts {| get_basket_id := B; get_year := Some Y;
                      get_x_api_key := x_api_key |} w =
        (Raise (HTTPException 401 "Unauthorized"), w)) /\
     (forall B Y P body,
        upsert_chart B Y P x_api_key w =
        (Raise (HTTPException 401 "Unauthorized"), w) /\
        (validate_ChartPayload body = Some P ->
         PUT_charts {| put_basket_id := B; put_year := Some Y;
                       put_x_api_key := x_api_key; put_body := Some body |} w =
         (Raise (HTTPException 401 "Unauthorized"), w)))).
Proof.
  split.
  - intros H. apply require_api_key_accepts. left. by destruct H as [-> | ->].
  - intros secret Hs Hne Hx.
    assert (Hrej : ~ accepts x_api_key).
    { unfold accepts. rewrite Hs. simpl. rewrite bool_decide_eq_false_2 by done.
      intros [?|?]; done. }
    split_and!.
    + by apply require_api_key_rejects.
    + intros B Y. split; [by apply get_chart_rejected|].
      unfold GET_charts, bind. simpl. by rewrite get_chart_rejected.
    + intros B Y P body. split; [by apply upsert_chart_rejected|].
      intros Hbody. unfold PUT_charts. simpl. rewrite Hbody.
      by apply upsert_chart_rejected.
Qed.

(** C3. One row per key: in every world the service reaches from a new
    database file the keys of the table are distinct, and a write on a key
    that has a row puts the new payload and time into that row, where it
    stands, and leaves the other rows and the length of the table as they
    are. *)
Theorem one_row_per_key (now_ms : Z) (es : list event) :
  exists t,
    chart_cache (run es (started now_ms)) = Some t /\
    NoDup (keys t) /\
    forall i r B Y P (x_api_key : option string),
      t !! i = Some r -> key_of r = (B, Y) ->
      accepts x_api_key -> basketId P = B ->
      let w := run es (started now_ms) in
      chart_cache (snd (upsert_chart B Y P x_api_key w)) =
      Some (<[i := Row B Y (model_dump_json P) (clock_ms w)]> t).
Proof.
  destruct (run_NoDup es (started now_ms) []) as (t & Ht & Hnd);
    [apply started_table | apply NoDup_nil_2 |].
  destruct (run_fits es (started now_ms) []) as (t' & Ht' & Hfits);
    [apply started_table | apply Forall_nil_2 |].
  assert (t' = t) as -> by congruence.
  exists t. split_and!; [done | done |].
  intros i r B Y P x_api_key Hi Hr Ha Hb w.
  assert (Hfit : fits_int64 Y = true).
  { rewrite Forall_lookup in Hfits. specialize (Hfits i r Hi). simpl in Hfits.
    unfold key_of in Hr. by injection Hr as _ <-. }
  unfold w. rewrite (upsert_chart_accepted _ _ _ _ _ t) by done. simpl.
  f_equal. by apply upsert_in_place with r.
Qed.

(** C4. Mismatch: a write whose body names another basket than the path,
    once its parameters are validated and the gate is passed, is answered
    400, and the world is as it was: no row is added or changed and the
    store is not opened. *)
Theorem basket_id_mismatch_rejected (rq : put_request) Y P w :
  put_year rq = Some Y ->
  put_body rq ≫= validate_ChartPayload = Some P ->
  accepts (put_x_api_key rq) ->
  basketId P ≠ put_basket_id rq ->
  PUT_charts rq w = (Raise (HTTPException 400 "basketId mismatch"), w).
Proof.
  intros Hy Hp Ha Hb. unfold PUT_charts. rewrite Hy, Hp.
  by apply upsert_chart_mismatch.
Qed.

(** C5. Corrupt data: when the text stored for the key is not the text of a
    ChartPayload, because [json.loads] raises on it or because what it reads
    is not of the shape of the model, the read is answered 500. *)
Theorem corrupt_payload_is_500 (rq : get_request) Y w (r : row) :
  get_year rq = Some Y ->
  accepts (get_x_api_key rq) ->
  stored (get_basket_id rq, Y) w = Some r ->
  json_loads (payload r) ≫= validate_ChartPayload = None ->
  http_status (fst (GET_charts rq w)) = 500 /\
  (fst (GET_charts rq w) = Raise (HTTPException 500 "Corrupted payload") \/
   fst (GET_charts rq w) = Raise ResponseValidationError).
Proof.
  intros Hy Ha Hr Hbad. unfold stored in Hr. simpl in Hr.
  destruct (fits_int64 Y) eqn:Hfit; [|done].
  destruct (chart_cache w) as [t|] eqn:Ht; [|done]. simpl in Hr.
  rewrite (GET_charts_accepted rq Y w t) by done. rewrite Hr.
  destruct (json_loads (payload r)) as [v|]; simpl in *.
  - rewrite Hbad. auto.
  - auto.
Qed.

(** C6, as the code has it.  Not found: after any run of the service
    from a new database file in which no request has written the key (a
    request that addressed the key and was rejected has not written it),
    a read of the key with an accepted credential and a year that fits
    64 bits is answered 404, not with a payload. *)
Theorem never_written_is_404 (now_ms : Z) (es : list event) (rq : get_request) Y :
  get_year rq = Some Y ->
  fits_int64 Y = true ->
  accepts (get_x_api_key rq) ->
  unwritten (get_basket_id rq, Y) es (started now_ms) ->
  fst (GET_charts rq (run es (started now_ms))) =
  Raise (HTTPException 404 "Not found").
Proof.
  intros Hy Hfit Ha Hes.
  destruct (run_NoDup es (started now_ms) []) as (t & Ht & _);
    [apply started_table | apply NoDup_nil_2 |].
  rewrite (GET_charts_accepted rq Y _ t) by done.
  pose proof (run_fetchone es (started now_ms) _ Hes) as Hs.
  rewrite Ht, started_table in Hs. simpl in Hs.
  by rewrite Hs.
Qed.

(** C7. Key isolation: a write to [(B1, Y1)] that succeeds leaves the row
    stored for any key [(B2, Y2)] that differs from it in the basket or in
    the year, and so leaves what a read of that key answers. *)
Theorem write_leaves_other_keys B1 Y1 B2 Y2 P (x_api_key : option string)
    w (res : upsert_result) w' :
  B1 ≠ B2 \/ Y1 ≠ Y2 ->
  upsert_chart B1 Y1 P x_api_key w = (Return res, w') ->
  stored (B2, Y2) w' = stored (B2, Y2) w /\
  forall rq : get_request,
    get_basket_id rq = B2 -> get_year rq = Some Y2 ->
    fst (GET_charts rq w') = fst (GET_charts rq w).
Proof.
  intros Hne Hput.
  destruct (upsert_chart_returns _ _ _ _ _ _ _ Hput) as (Ha & Hb & Hfit & t & Ht).
  rewrite (upsert_chart_accepted _ _ _ _ _ t) in Hput by done.
  injection Hput as _ <-.
  assert (Hk : (B2, Y2) ≠ key_of (Row B1 Y1 (model_dump_json P) (clock_ms w))).
  { unfold key_of. simpl. intros [= -> ->]. by destruct Hne. }
  split.
  - unfold stored. simpl. rewrite Ht. simpl. by rewrite fetchone_upsert_ne.
  - intros rq <- Hy. destruct (accepts_dec (get_x_api_key rq)) as [Hx|Hx].
    + erewrite !GET_charts_answer; [| done | done | exact Ht | done | done | reflexivity].
      by rewrite fetchone_upsert_ne.
    + unfold GET_charts. rewrite Hy. unfold bind.
      by rewrite !get_chart_rejected.
Qed.

(** C8. Writing twice: when [(B, Y, P)], with a year that fits 64 bits, is
    written and then written again, the second write answers with the time
    it read from the clock, the row of the key holds the text of [P] and
    that time, the text is the one the first write had stored, and the
    table is the table that the second write alone would have left. *)
Theorem write_twice B Y P (x1 x2 : option string) w t (now2 : Z) :
  chart_cache w = Some t -> fits_int64 Y = true ->
  basketId P = B -> accepts x1 -> accepts x2 ->
  let w1 := snd (upsert_chart B Y P x1 w) in
  let second := upsert_chart B Y P x2 (set_clock now2 w1) in
  fst (upsert_chart B Y P x1 w) =
    Return {| ok := true; updatedAtMs := clock_ms w |} /\
  fst second = Return {| ok := true; updatedAtMs := now2 |} /\
  stored (B, Y) (snd second) = Some (Row B Y (model_dump_json P) now2) /\
  payload <$> stored (B, Y) (snd second) = payload <$> stored (B, Y) w1 /\
  chart_cache (snd second) =
    chart_cache (snd (upsert_chart B Y P x2 (set_clock now2 w))).
Proof.
  intros Ht Hfit Hb Ha1 Ha2 w1 second. unfold second, w1.
  rewrite (upsert_chart_accepted _ _ _ x1 w t) by done. simpl.
  erewrite (upsert_chart_accepted _ _ _ x2 (set_clock now2 w)) by done.
  erewrite (upsert_chart_accepted _ _ _ x2) by (done || reflexivity).
  unfold stored. simpl. rewrite Hfit.
  rewrite (upsert_upsert (Row B Y (model_dump_json P) (clock_ms w))) by done.
  rewrite (fetchone_upsert_eq (Row B Y (model_dump_json P) now2) t).
  rewrite (fetchone_upsert_eq (Row B Y (model_dump_json P) (clock_ms w)) t).
  done.
Qed.

(** C9, as the code has it.  FastAPI validates the parameters of the
    handler, the body among them, before it calls the handler, and the gate
    is the first statement of the handler: a write whose year or body does
    not validate is answered 422 whatever its credential, and a write whose
    parameters validate and whose credential the gate does not accept is
    answered 401 before the identifiers are compared and with the world as
    it was. *)
Theorem put_validates_then_authorizes (rq : put_request) w :
  (put_year rq = None \/ put_body rq ≫= validate_ChartPayload = None ->
   PUT_charts rq w = (Raise RequestValidationError, w)) /\
  (forall Y P,
     put_year rq = Some Y ->
     put_body rq ≫= validate_ChartPayload = Some P ->
     ~ accepts (put_x_api_key rq) ->
     PUT_charts rq w = (Raise (HTTPException 401 "Unauthorized"), w)).
Proof.
  split.
  - intros [H|H]; unfold PUT_charts; rewrite H; [done|].
    by destruct (put_year rq).
  - intros Y P Hy Hp Ha. unfold PUT_charts. rewrite Hy, Hp.
    by apply upsert_chart_rejected.
Qed.

Lemma same_point_validate (v v' : pyval) :
  same_point v v' -> validate_ChartPoint v = validate_ChartPoint v'.
Proof.
  destruct v, v'; simpl; intros H; try congruence.
  destruct H as [-> ->]. done.
Qed.

Lemma same_data_validate (d d' : option pyval) :
  same_data d d' -> d ≫= validate_data = d' ≫= validate_data.
Proof.
  destruct d as [[]|], d' as [[]|]; simpl; intros H; try congruence.
  induction H as [|v v' l l' Hv _ IH]; [done|].
  simpl. by rewrite (same_point_validate v v'), IH.
Qed.

(** Validation does not see the items the models do not name. *)
Lemma same_body_validate (v v' : pyval) :
  same_body v v' -> validate_ChartPayload v = validate_ChartPayload v'.
Proof.
  destruct v, v'; simpl; intros H; try congruence.
  destruct H as [-> H]. by rewrite (same_data_validate _ _ H).
Qed.

(** C10. What a write that is answered 200 stores: the row of the key
    holds the text the validated model serialises to, not the body; a
    body that differs from this one only in items the models do not name
    leaves the same world and the same answer, so those items are dropped
    before storage; and a read of the key that follows answers from the
    text of the model alone. *)
Theorem put_stores_validated_model (rq : put_request) Y (body : pyval) P w
    (res : upsert_result) :
  put_year rq = Some Y ->
  put_body rq = Some body ->
  validate_ChartPayload body = Some P ->
  fst (PUT_charts rq w) = Return res ->
  let B := put_basket_id rq in
  let w' := snd (PUT_charts rq w) in
  let r := Row B Y (model_dump_json P) (clock_ms w) in
  stored (B, Y) w' = Some r /\
  (forall body', same_body body body' ->
     PUT_charts (with_body body' rq) w = PUT_charts rq w) /\
  (forall (x_api_key : option string) (later : Z),
     accepts x_api_key ->
     fst (GET_charts {| get_basket_id := B; get_year := Some Y;
                        get_x_api_key := x_api_key |} (set_clock later w')) =
     answer_of_row (Some r)).
Proof.
  intros Hy Hbody Hp Hres B w' r.
  assert (Hput : PUT_charts rq w = upsert_chart B Y P (put_x_api_key rq) w).
  { unfold PUT_charts. rewrite Hy, Hbody. simpl. by rewrite Hp. }
  assert (Hup : exists w0,
            upsert_chart B Y P (put_x_api_key rq) w = (Return res, w0)).
  { rewrite Hput in Hres.
    destruct (upsert_chart B Y P (put_x_api_key rq) w) as [o w0].
    simpl in Hres. subst o. by exists w0. }
  destruct Hup as [w0 Hup].
  destruct (upsert_chart_returns _ _ _ _ _ _ _ Hup) as (Ha & Hb & Hfit & t & Ht).
  assert (Hw' : w' = traced [Connect; Execute (InsertOnConflictUpdate r); Commit; Close]
                      (with_table (insert_on_conflict_update r t) w)).
  { unfold w'. rewrite Hput, Hup. simpl.
    rewrite (upsert_chart_accepted _ _ _ _ _ t) in Hup by done.
    by injection Hup as _ <-. }
  split_and!.
  - rewrite Hw'. unfold stored. simpl. rewrite Hfit.
    apply (fetchone_upsert_eq r t).
  - intros body' Hsame. rewrite Hput. unfold PUT_charts, with_body. simpl.
    rewrite Hy, <- (same_body_validate _ _ Hsame), Hp. done.
  - intros x_api_key later Hx.
    erewrite GET_charts_answer; [| reflexivity | done | by rewrite Hw'].
    rewrite Hfit. simpl.
    assert (fetchone (B, Y) (insert_on_conflict_update r t) = Some r) as ->
      by apply (fetchone_upsert_eq r t).
    done.
Qed.

End Claims.

(** ** The reference library reads back what it writes *)

Section ReferenceFacts.

Import Reference.

Lemma app_cons (x : ascii) (a b : string) : String x a ++ b = String x (a ++ b).
Proof. reflexivity. Qed.

Lemma app_nil (b : string) : "" ++ b = b.
Proof. reflexivity. Qed.

Lemma string_app_assoc (a b c : string) : (a ++ b) ++ c = a ++ (b ++ c).
Proof. induction a as [|x a IH]; [done|]. rewrite !app_cons. by f_equal. Qed.

Lemma string_length_app (a b : string) :
  String.length (a ++ b) = (String.length a + String.length b)%nat.
Proof. induction a as [|x a IH]; [done|]. rewrite app_cons. simpl. by f_equal. Qed.


Lemma read_digits_stop rest : no_digit_ahead rest -> read_digits rest = (Decimal.Nil, rest).
Proof. destruct rest as [|c rest]; simpl; [done|]. by intros ->. Qed.

Lemma read_digits_show (d : Decimal.uint) rest :
  no_digit_ahead rest ->
  read_digits (NilEmpty.string_of_uint d ++ rest) = (d, rest).
Proof.
  intros H. induction d; simpl; rewrite ?app_cons; simpl; rewrite ?IHd; try done.
  by apply read_digits_stop.
Qed.

Lemma delimited_no_digit rest : delimited rest -> no_digit_ahead rest.
Proof. destruct rest as [|c rest]; simpl; [done|]. by intros [-> | [-> | ->]]. Qed.

(** The text of an integer: a sign and digits, at least one. *)
Lemma show_Z_digits (n : Z) :
  exists negative d,
    show_Z n = (if negative : bool then "-" else "") ++ NilEmpty.string_of_uint d /\
    no_digits d = false /\ signed negative d = n.
Proof.
  unfold show_Z, signed. destruct n as [|p|p]; simpl.
  - exists false, (Decimal.D0 Decimal.Nil). done.
  - exists false, (Pos.to_uint p). split_and!.
    + pose proof (Unsigned.to_uint_nonnil p). by destruct (Pos.to_uint p).
    + pose proof (Unsigned.to_uint_nonnil p). by destruct (Pos.to_uint p).
    + apply (DecimalZ.of_to (Z.pos p)).
  - exists true, (Pos.to_uint p). split_and!.
    + pose proof (Unsigned.to_uint_nonnil p). by destruct (Pos.to_uint p).
    + pose proof (Unsigned.to_uint_nonnil p). by destruct (Pos.to_uint p).
    + apply (DecimalZ.of_to (Z.neg p)).
Qed.

Lemma read_sign_show (negative : bool) (d : Decimal.uint) tail :
  no_digits d = false ->
  read_sign ((if negative then "-" else "") ++ NilEmpty.string_of_uint d ++ tail) =
  (negative, NilEmpty.string_of_uint d ++ tail).
Proof.
  intros Hd. destruct negative; [done|]. rewrite app_nil. by destruct d.
Qed.

Lemma read_plus_or_sign_show (negative : bool) (d : Decimal.uint) tail :
  no_digits d = false ->
  read_exponent_sign
    ((if negative then "-" else "") ++ NilEmpty.string_of_uint d ++ tail) =
  (negative, NilEmpty.string_of_uint d ++ tail).
Proof.
  intros Hd. destruct negative; [done|]. rewrite app_nil. by destruct d.
Qed.

Lemma read_fraction_none rest :
  delimited rest \/ (exists s, rest = String "e" s) ->
  read_fraction rest = Some (Decimal.Nil, rest).
Proof.
  destruct rest as [|c rest]; [done|]. 
  intros [[-> | [-> | ->]] | [s [= -> ->]]]; reflexivity.
Qed.

Lemma read_exponent_none rest :
  delimited rest -> read_exponent rest = Some (None, rest).
Proof.
  destruct rest as [|c rest]; [done|]. 
  intros [-> | [-> | ->]]; reflexivity.
Qed.

Lemma read_number_int (n : Z) rest :
  delimited rest -> read_number (show_Z n ++ rest) = Some (PInt n, rest).
Proof.
  intros Hrest. destruct (show_Z_digits n) as (negative & d & -> & Hd & <-).
  unfold read_number. rewrite string_app_assoc, read_sign_show by done.
  rewrite read_digits_show by (by apply delimited_no_digit). rewrite Hd.
  rewrite read_fraction_none by (by left). simpl.
  rewrite read_exponent_none by done. done.
Qed.

Lemma read_exponent_show (e : Z) rest :
  delimited rest ->
  read_exponent (String "e" (show_Z e ++ rest)) = Some (Some e, rest).
Proof.
  intros Hrest. destruct (show_Z_digits e) as (negative & d & -> & Hd & <-).
  unfold read_exponent. rewrite bool_decide_eq_true_2 by (by left).
  rewrite string_app_assoc, read_plus_or_sign_show by done.
  rewrite read_digits_show by (by apply delimited_no_digit). by rewrite Hd.
Qed.

Lemma read_number_float (m e : Z) rest :
  delimited rest ->
  read_number (show_decimal (Decimal m e) ++ rest) =
  Some (PFloat (Decimal m e), rest).
Proof.
  intros Hrest. unfold show_decimal. simpl.
  destruct (show_Z_digits m) as (negative & d & -> & Hd & <-).
  unfold read_number. rewrite !string_app_assoc, read_sign_show by done.
  rewrite app_cons, app_nil.
  rewrite read_digits_show by done. rewrite Hd.
  rewrite read_fraction_none by (right; eauto). cbn -[read_exponent].
  rewrite read_exponent_show by done. done.
Qed.

Lemma read_str_escape (s : string) rest :
  read_str (escape s ++ String quote rest) = Some (s, rest).
Proof.
  induction s as [|c s IH].
  - reflexivity.
  - cbn [escape]. case_bool_decide as Hc.
    + rewrite !app_cons. cbn [read_str].
      rewrite (bool_decide_eq_false_2 (backslash = quote)) by done.
      rewrite (bool_decide_eq_true_2 (backslash = backslash)) by done.
      rewrite (bool_decide_eq_true_2 (c = quote \/ c = backslash \/ c = "/"%char))
        by tauto.
      cbn [mbind option_bind]. rewrite IH. done.
    + rewrite app_cons. cbn [read_str].
      rewrite !bool_decide_eq_false_2 by tauto. rewrite IH. done.
Qed.

Lemma read_str_show (s : string) rest :
  exists text, show_str s ++ rest = String quote text /\ read_str text = Some (s, rest).
Proof.
  unfold show_str. eexists. rewrite app_cons. split; [reflexivity|].
  rewrite string_app_assoc, app_cons, app_nil. apply read_str_escape.
Qed.

Lemma strip_prefix_app (word rest : string) : strip_prefix word (word ++ rest) = Some rest.
Proof.
  induction word as [|c word IH]; [done|]. rewrite app_cons. simpl.
  by rewrite bool_decide_eq_true_2.
Qed.

Lemma json_dumps_list (l : list (pyval decimal)) :
  json_dumps (PList l) = "[" ++ dump_elements l ++ "]".
Proof. reflexivity. Qed.

Lemma json_dumps_dict (items : list (string * pyval decimal)) :
  json_dumps (PDict items) = "{" ++ dump_members items ++ "}".
Proof. reflexivity. Qed.

Lemma pyval_deep_ind (P : pyval decimal -> Prop) :
  P PNone -> (forall b, P (PBool b)) -> (forall n, P (PInt n)) ->
  (forall x, P (PFloat x)) -> (forall s, P (PStr s)) ->
  (forall l, Forall P l -> P (PList l)) ->
  (forall items, Forall (fun kv => P (snd kv)) items -> P (PDict items)) ->
  forall v, P v.
Proof.
  intros Hnone Hbool Hint Hfloat Hstr Hlist Hdict.
  fix IH 1. intros [ |b|n|x|s|l|items].
  - exact Hnone.
  - apply Hbool.
  - apply Hint.
  - apply Hfloat.
  - apply Hstr.
  - apply Hlist. revert l. fix IHl 1. intros [|v l]; constructor; [apply IH | apply IHl].
  - apply Hdict. revert items. fix IHl 1.
    intros [|[k v] l]; constructor; [apply IH | apply IHl].
Qed.

Ltac differ := let H := fresh in intros H; vm_compute in H; discriminate H.

Lemma skip_space_value s : value_ahead s -> skip_space s = s.
Proof. destruct s as [|c s]; [done|]. intros (H & _). simpl. by rewrite H. Qed.

Lemma expect_here (c : ascii) rest :
  is_space c = false -> expect c (String c rest) = Some rest.
Proof.
  intros H. unfold expect. simpl. rewrite H. by rewrite bool_decide_eq_true_2.
Qed.

Lemma expect_other (c c' : ascii) rest :
  is_space c' = false -> c' ≠ c -> expect c (String c' rest) = None.
Proof.
  intros H Hne. unfold expect. simpl. rewrite H. by rewrite bool_decide_eq_false_2.
Qed.

Lemma expect_value (c : ascii) s :
  value_ahead s -> c = "]"%char \/ c = "}"%char -> expect c s = None.
Proof.
  destruct s as [|c' s]; [done|]. intros (H & H1 & H2) Hc.
  apply expect_other; [done|]. destruct Hc; congruence.
Qed.

(** What the text of a value starts with. *)
Lemma json_dumps_head (v : pyval decimal) :
  exists c s,
    json_dumps v = String c s /\ is_space c = false /\
    c ≠ "]"%char /\ c ≠ "}"%char /\
    (match v with
     | PInt _ | PFloat (Decimal _ _) =>
         c ≠ quote /\ c ≠ "["%char /\ c ≠ "{"%char /\
         c ≠ "n"%char /\ c ≠ "t"%char /\ c ≠ "f"%char
     | _ => True
     end).
Proof.
  assert (Hnum : forall n tail, exists c s,
    show_Z n ++ tail = String c s /\ is_space c = false /\
    c ≠ "]"%char /\ c ≠ "}"%char /\
    c ≠ quote /\ c ≠ "["%char /\ c ≠ "{"%char /\
    c ≠ "n"%char /\ c ≠ "t"%char /\ c ≠ "f"%char).
  { intros n tail. destruct (show_Z_digits n) as (negative & d & -> & Hd & _).
    destruct negative.
    - eexists _, _. split; [reflexivity|]. split_and!; (reflexivity || differ).
    - rewrite app_nil. destruct d; try discriminate Hd;
        (eexists _, _; split; [reflexivity|]; split_and!; (reflexivity || differ)). }
  destruct v as [ |[]|n|x|s|l|items].
  - eexists _, _. split; [reflexivity|]. split_and!; (done || reflexivity || differ).
  - eexists _, _. split; [reflexivity|]. split_and!; (done || reflexivity || differ).
  - eexists _, _. split; [reflexivity|]. split_and!; (done || reflexivity || differ).
  - destruct (Hnum n "") as (c & s & H & ?). exists c, s.
    split; [|naive_solver]. simpl. rewrite <- H. clear. 
    induction (show_Z n) as [|a t IH]; [done|]. rewrite app_cons. by f_equal.
  - destruct x as [m e| | ].
    + destruct (Hnum m ("e" ++ show_Z e)) as (c & s & H & ?).
      exists c, s. split; [exact H | naive_solver].
    + eexists _, _. split; [reflexivity|].
      split_and!; (done || reflexivity || differ).
    + eexists _, _. split; [reflexivity|].
      split_and!; (done || reflexivity || differ).
  - eexists _, _. split; [reflexivity|]. split_and!; (done || reflexivity || differ).
  - eexists _, _. split; [reflexivity|]. split_and!; (done || reflexivity || differ).
  - eexists _, _. split; [reflexivity|]. split_and!; (done || reflexivity || differ).
Qed.

Lemma json_dumps_value_ahead (v : pyval decimal) tail : value_ahead (json_dumps v ++ tail).
Proof.
  destruct (json_dumps_head v) as (c & s & -> & H1 & H2 & H3 & _). done.
Qed.

Lemma json_dumps_length (v : pyval decimal) : (1 <= String.length (json_dumps v))%nat.
Proof. destruct (json_dumps_head v) as (c & s & -> & _). simpl. lia. Qed.

Lemma as_dict_acc (members acc : list (string * pyval decimal)) :
  NoDup ((acc ++ members)%list).*1 ->
  fold_left (fun d kv => dict_set (fst kv) (snd kv) d) members acc = (acc ++ members)%list.
Proof.
  revert acc. induction members as [|[k v] members IH]; intros acc Hnd; simpl.
  - by rewrite app_nil_r.
  - assert (Hset : dict_set k v acc = (acc ++ [(k, v)])%list).
    { assert (Hk : k ∉ acc.*1).
      { rewrite fmap_app in Hnd. apply NoDup_app in Hnd as (_ & Hdis & _).
        intros Hin. apply (Hdis k Hin). simpl. left. }
      clear -Hk. induction acc as [|[k' v'] acc IH]; simpl; [done|].
      simpl in Hk. apply not_elem_of_cons in Hk as [Hne Hk].
      rewrite bool_decide_eq_false_2 by done. by rewrite IH. }
    rewrite Hset, IH; rewrite <- app_assoc; done.
Qed.

Lemma as_dict_NoDup (members : list (string * pyval decimal)) :
  NoDup members.*1 -> as_dict members = members.
Proof. intros H. unfold as_dict. by rewrite as_dict_acc. Qed.

Lemma read_value_scalar fuel (c : ascii) s :
  is_space c = false ->
  c ≠ quote -> c ≠ "["%char -> c ≠ "{"%char ->
  c ≠ "n"%char -> c ≠ "t"%char -> c ≠ "f"%char ->
  read_value (S fuel) (String c s) = read_number (String c s).
Proof.
  intros Hs H1 H2 H3 H4 H5 H6. cbn [read_value skip_space]. rewrite Hs.
  by rewrite !bool_decide_eq_false_2 by done.
Qed.

Lemma read_value_str fuel s :
  read_value (S fuel) (String quote s) =
  '(text, rest) ← read_str s; Some (PStr text, rest).
Proof. reflexivity. Qed.

Lemma read_value_list fuel s :
  read_value (S fuel) (String "[" s) =
  match expect "]" s with
  | Some rest => Some (PList [], rest)
  | None => '(l, rest) ← read_elements fuel s; Some (PList l, rest)
  end.
Proof. reflexivity. Qed.

Lemma read_value_dict fuel s :
  read_value (S fuel) (String "{" s) =
  match expect "}" s with
  | Some rest => Some (PDict [], rest)
  | None => '(members, rest) ← read_members fuel s; Some (PDict (as_dict members), rest)
  end.
Proof. reflexivity. Qed.

(** Reading the elements of a list, given that each of them reads. *)
Lemma read_elements_dumps (l : list (pyval decimal)) :
  l ≠ [] ->
  Forall (fun v => forall fuel rest,
            (String.length (json_dumps v) <= fuel)%nat -> delimited rest ->
            read_value fuel (json_dumps v ++ rest) = Some (nullify v, rest)) l ->
  forall fuel rest,
    (String.length (dump_elements l) < fuel)%nat ->
    read_elements fuel (dump_elements l ++ String "]" rest) =
    Some (map nullify l, rest).
Proof.
  induction l as [|v l IH]; [done|]. intros _ Hall fuel rest Hfuel.
  apply Forall_cons in Hall as [Hv Hall].
  destruct fuel as [|fuel]; [lia|]. cbn [read_elements].
  destruct l as [|v' l].
  - cbn [dump_elements] in *. rewrite Hv; [| lia | simpl; auto].
    cbn [mbind option_bind]. by rewrite expect_here.
  - change (dump_elements (v :: v' :: l))
      with (json_dumps v ++ "," ++ dump_elements (v' :: l)) in *.
    rewrite !string_length_app in Hfuel.
    rewrite !string_app_assoc, app_cons, app_nil.
    rewrite Hv; [| lia | simpl; auto].
    cbn [mbind option_bind]. rewrite expect_other by (reflexivity || differ).
    rewrite expect_here by reflexivity. cbn [mbind option_bind].
    rewrite IH; [done | done | done |].
    change (String.length ",") with 1%nat in Hfuel. lia.
Qed.

(** Reading the members of a dict, given that each of their values
    reads. *)
Lemma read_members_dumps (items : list (string * pyval decimal)) :
  items ≠ [] ->
  Forall (fun kv => forall fuel rest,
            (String.length (json_dumps (snd kv)) <= fuel)%nat -> delimited rest ->
            read_value fuel (json_dumps (snd kv) ++ rest) =
            Some (nullify (snd kv), rest)) items ->
  forall fuel rest,
    (String.length (dump_members items) < fuel)%nat ->
    read_members fuel (dump_members items ++ String "}" rest) =
    Some (map (fun '(k, v) => (k, nullify v)) items, rest).
Proof.
  induction items as [|[k v] l IH]; [done|]. intros _ Hall fuel rest Hfuel.
  apply Forall_cons in Hall as [Hv Hall]. simpl in Hv.
  destruct fuel as [|fuel]; [lia|]. cbn [read_members].
  destruct l as [|kv' l].
  - cbn [dump_members] in *. rewrite !string_length_app in Hfuel.
    rewrite !string_app_assoc. unfold show_str at 1.
    rewrite app_cons, expect_here by reflexivity. cbn [mbind option_bind].
    rewrite string_app_assoc, app_cons, app_nil, read_str_escape.
    cbn [mbind option_bind]. rewrite app_cons, app_nil.
    rewrite expect_here by reflexivity. cbn [mbind option_bind].
    rewrite Hv; [| simpl in Hfuel; lia | simpl; auto].
    cbn [mbind option_bind]. by rewrite expect_here.
  - change (dump_members ((k, v) :: kv' :: l))
      with (show_str k ++ ":" ++ json_dumps v ++ "," ++ dump_members (kv' :: l)) in *.
    rewrite !string_length_app in Hfuel.
    rewrite !string_app_assoc. unfold show_str at 1.
    rewrite app_cons, expect_here by reflexivity. cbn [mbind option_bind].
    rewrite string_app_assoc, app_cons, app_nil, read_str_escape.
    cbn [mbind option_bind]. rewrite app_cons, app_nil.
    rewrite expect_here by reflexivity. cbn [mbind option_bind].
    rewrite (app_cons "," ""), app_nil.
    rewrite Hv; [| simpl in Hfuel; lia | simpl; auto].
    cbn [mbind option_bind]. rewrite expect_other by (reflexivity || differ).
    rewrite expect_here by reflexivity. cbn [mbind option_bind].
    rewrite IH; [done | done | done |].
    change (String.length ":") with 1%nat in Hfuel.
    change (String.length ",") with 1%nat in Hfuel. lia.
Qed.

Lemma nullify_keys (items : list (string * pyval decimal)) :
  (map (fun '(k, v) => (k, nullify v)) items).*1 = items.*1.
Proof. induction items as [|[k v] l IH]; [done|]. simpl. by f_equal. Qed.

(** The reader reads the text the writer writes for a value back as the
    value, with [None] where a float is not finite. *)
Lemma read_value_dumps (v : pyval decimal) :
  well_formed v ->
  forall fuel rest,
    (String.length (json_dumps v) <= fuel)%nat -> delimited rest ->
    read_value fuel (json_dumps v ++ rest) = Some (nullify v, rest).
Proof.
  induction v as [ |b|n|x|s|l IH|items IH] using pyval_deep_ind;
    intros Hwf fuel rest Hfuel Hrest.
  - destruct fuel as [|fuel]; [simpl in Hfuel; lia|]. by destruct rest.
  - destruct fuel as [|fuel]; [destruct b; simpl in Hfuel; lia|].
    destruct b; by destruct rest.
  - pose proof (json_dumps_length (PInt n)).
    destruct fuel as [|fuel]; [lia|].
    destruct (json_dumps_head (PInt n)) as (c & t & Ht & Hs & _ & _ & Hc).
    change (json_dumps (PInt n)) with (show_Z n) in *.
    cbn [nullify]. rewrite <- (read_number_int n rest) by done.
    rewrite Ht, app_cons. apply read_value_scalar; tauto.
  - destruct x as [m e|negative| ].
    + pose proof (json_dumps_length (PFloat (Decimal m e))).
      destruct fuel as [|fuel]; [lia|].
      destruct (json_dumps_head (PFloat (Decimal m e)))
        as (c & t & Ht & Hs & _ & _ & Hc).
      change (json_dumps (PFloat (Decimal m e)))
        with (show_decimal (Decimal m e)) in *.
      cbn [nullify finite]. rewrite <- (read_number_float m e rest) by done.
      rewrite Ht, app_cons. apply read_value_scalar; tauto.
    + destruct fuel as [|fuel]; [simpl in Hfuel; lia|]. by destruct rest.
    + destruct fuel as [|fuel]; [simpl in Hfuel; lia|]. by destruct rest.
  - destruct fuel as [|fuel]; [simpl in Hfuel; lia|].
    change (json_dumps (PStr s)) with (show_str s). unfold show_str.
    rewrite app_cons, string_app_assoc, app_cons, app_nil.
    rewrite read_value_str by done. by rewrite read_str_escape.
  - rewrite json_dumps_list in *. rewrite !string_length_app in Hfuel.
    destruct fuel as [|fuel]; [simpl in Hfuel; lia|].
    rewrite !string_app_assoc, !app_cons, !app_nil.
    rewrite read_value_list.
    inversion Hwf as [ | | | | |l' Hl|]; subst.
    destruct l as [|v l].
    + rewrite app_nil. by rewrite expect_here.
    + rewrite expect_value; [| | by left].
      * rewrite read_elements_dumps;
          [done | done | |
           change (String.length "[") with 1%nat in Hfuel;
           change (String.length "]") with 1%nat in Hfuel; lia].
        apply Forall_forall. intros v' Hv'.
        rewrite Forall_forall in IH, Hl. apply IH; [done|]. by apply Hl.
      * destruct l; [apply json_dumps_value_ahead|].
        change (dump_elements (v :: p :: l))
          with (json_dumps v ++ "," ++ dump_elements (p :: l)).
        rewrite string_app_assoc. apply json_dumps_value_ahead.
  - rewrite json_dumps_dict in *. rewrite !string_length_app in Hfuel.
    destruct fuel as [|fuel]; [simpl in Hfuel; lia|].
    rewrite !string_app_assoc, !app_cons, !app_nil.
    rewrite read_value_dict.
    inversion Hwf as [ | | | | | |items' Hnd Hl]; subst.
    destruct items as [|[k v] l].
    + rewrite app_nil. by rewrite expect_here.
    + rewrite expect_value; [| | by right].
      * rewrite read_members_dumps;
          [ | done | |
           change (String.length "{") with 1%nat in Hfuel;
           change (String.length "}") with 1%nat in Hfuel; lia].
        -- cbn [mbind option_bind nullify].
           rewrite as_dict_NoDup; [done|]. by rewrite nullify_keys.
        -- apply Forall_forall. intros kv Hkv.
           rewrite Forall_forall in IH, Hl. apply IH; [done|]. by apply Hl.
      * destruct l as [|[k' v'] l]; cbn [dump_members]; unfold show_str at 1;
          rewrite !app_cons; done.
Qed.

Lemma string_app_nil_r (s : string) : s ++ "" = s.
Proof. induction s as [|c s IH]; [done|]. rewrite app_cons. by f_equal. Qed.

(** On the reference library, reading what was written gives the value
    back, with [None] where a float is not finite. *)
Lemma loads_json_dumps (v : pyval decimal) :
  well_formed v -> loads (json_dumps v) = Some (nullify v).
Proof.
  intros Hwf. unfold loads.
  rewrite <- (string_app_nil_r (json_dumps v)) at 2.
  rewrite read_value_dumps; [done | done | lia | done].
Qed.

Lemma NoDup_two (a b : string) : a ≠ b -> NoDup [a; b].
Proof.
  intros H. apply NoDup_cons_2; [|apply NoDup_singleton].
  by intros ->%list_elem_of_singleton.
Qed.

Lemma well_formed_model_dump (p : ChartPayload decimal) : well_formed (model_dump p).
Proof.
  unfold model_dump. apply wf_dict; [by apply NoDup_two|].
  apply Forall_cons. split; [apply wf_str|].
  apply Forall_cons. split; [|apply Forall_nil_2]. simpl.
  apply wf_list, Forall_fmap, Forall_forall. intros point _.
  unfold dump_ChartPoint. apply wf_dict; [by apply NoDup_two|].
  apply Forall_cons. split; [apply wf_int|].
  apply Forall_cons. split; [|apply Forall_nil_2]. simpl.
  unfold dump_prices. apply wf_dict.
  - rewrite <- list_fmap_compose.
    apply (NoDup_fst_map_to_list (prices point)).
  - apply Forall_fmap, Forall_forall. intros [k x] _. apply wf_float.
Qed.

(** What the reference library reads back from the text of a model. *)
Lemma loads_dumps (p : ChartPayload decimal) :
  loads (dumps p) = Some (nullify (model_dump p)).
Proof. apply loads_json_dumps, well_formed_model_dump. Qed.

Lemma nullify_dump_prices (m : gmap string decimal) :
  map_Forall (fun _ x => finite x = true) m ->
  nullify (dump_prices m) = dump_prices m.
Proof.
  intros H. apply map_Forall_to_list in H. unfold dump_prices.
  change (nullify (PDict ?items))
    with (PDict (map (fun '(k, v) => (k, nullify v)) items)).
  f_equal. induction H as [|[k x] l Hx _ IH]; [done|].
  rewrite fmap_cons. cbn [map]. rewrite IH. simpl in Hx.
  by destruct x.
Qed.

Lemma nullify_dump_ChartPoint (point : ChartPoint decimal) :
  nullify (dump_ChartPoint point) =
  PDict [("timestamp", PInt (timestamp point));
         ("prices", nullify (dump_prices (prices point)))].
Proof. reflexivity. Qed.

Lemma nullify_model_dump_eq (p : ChartPayload decimal) :
  nullify (model_dump p) =
  PDict [("basketId", PStr (basketId p));
         ("data", PList (map nullify (dump_ChartPoint <$> data p)))].
Proof. reflexivity. Qed.

(** The text of a payload whose prices are finite is read back as the
    value the payload serialises to. *)
Lemma nullify_model_dump (p : ChartPayload decimal) :
  finite_prices p -> nullify (model_dump p) = model_dump p.
Proof.
  intros H. rewrite nullify_model_dump_eq. unfold model_dump.
  assert (map nullify (dump_ChartPoint <$> data p) = dump_ChartPoint <$> data p)
    as ->; [|done].
  unfold finite_prices in H. revert H.
  induction (data p) as [|point l IH]; intros H; [done|].
  apply Forall_cons in H as [Hpoint H].
  rewrite fmap_cons. cbn [map]. rewrite IH by done. f_equal.
  rewrite nullify_dump_ChartPoint. by rewrite nullify_dump_prices.
Qed.

Lemma reference_exact_scalars : exact_scalars (lib := library).
Proof. split; intros; reflexivity. Qed.

Lemma mapM_cons {A B : Type} (f : A -> option B) (x : A) (l : list A) :
  mapM f (x :: l) = y ← f x; k ← mapM f l; Some (y :: k).
Proof. reflexivity. Qed.

(** A model that validates from the text of a model is that model, and
    its prices are finite: a price that was not finite does not validate,
    and nothing else has changed. *)
Lemma validate_prices_nullify (m m' : gmap string decimal) :
  validate_prices (lib := library) (nullify (dump_prices m)) = Some m' ->
  m' = m /\ map_Forall (fun _ x => finite x = true) m.
Proof.
  unfold dump_prices.
  change (nullify (PDict ?items))
    with (PDict (map (fun '(k, v) => (k, nullify v)) items)).
  unfold validate_prices. intros H. apply fmap_Some in H as (l' & Hl' & ->).
  rewrite map_Forall_to_list.
  rewrite <- (list_to_map_to_list m) at 1.
  cut (l' = map_to_list m /\
       Forall (uncurry (fun (_ : string) x => finite x = true)) (map_to_list m)).
  { intros [-> ?]. done. }
  revert l' Hl'. induction (map_to_list m) as [|[k x] l IH]; intros l' Hl'.
  - by injection Hl' as <-.
  - rewrite fmap_cons in Hl'. cbn [map] in Hl'. rewrite mapM_cons in Hl'.
    destruct x as [mantissa exponent| | ]; simpl in Hl'; try done.
    destruct (mapM _ _) as [l0|] eqn:E in Hl'; [|done].
    simpl in Hl'. injection Hl' as <-.
    destruct (IH l0 E) as [-> Hall]. split; [done|]. by constructor.
Qed.

Lemma validate_ChartPoint_nullify (point point' : ChartPoint decimal) :
  validate_ChartPoint (lib := library) (nullify (dump_ChartPoint point)) =
    Some point' ->
  point' = point /\ map_Forall (fun _ x => finite x = true) (prices point).
Proof.
  rewrite nullify_dump_ChartPoint. unfold validate_ChartPoint.
  rewrite dict_get_here, dict_get_next, dict_get_here by done.
  cbn [mbind option_bind validate_int library as_int].
  destruct (validate_prices _) as [m'|] eqn:E; [|done].
  apply validate_prices_nullify in E as [-> Hfin]. intros [= <-].
  split; [by destruct point | done].
Qed.

Lemma validate_ChartPayload_nullify (p p' : ChartPayload decimal) :
  validate_ChartPayload (lib := library) (nullify (model_dump p)) = Some p' ->
  p' = p /\ finite_prices p.
Proof.
  rewrite nullify_model_dump_eq. unfold validate_ChartPayload.
  rewrite dict_get_here, dict_get_next, dict_get_here by done.
  cbn [mbind option_bind validate_str validate_data].
  destruct (mapM _ _) as [points|] eqn:E; [|done].
  intros [= <-]. unfold finite_prices. destruct p as [b d]. simpl in *.
  cut (points = d /\
       Forall (fun point => map_Forall (fun _ x => finite x = true) (prices point)) d).
  { intros [-> ?]. done. }
  revert points E. induction d as [|point l IH]; intros points E.
  - by injection E as <-.
  - rewrite fmap_cons in E. cbn [map] in E. rewrite mapM_cons in E.
    destruct (validate_ChartPoint _) as [point'|] eqn:Ep in E; [|done].
    apply validate_ChartPoint_nullify in Ep as [-> Hfin]. simpl in E.
    destruct (mapM _ _) as [l0|] eqn:El in E; [|done].
    simpl in E. injection E as <-.
    destruct (IH l0 El) as [-> Hall]. split; [done|]. by constructor.
Qed.

(** What a read answers from a row that holds the text of a model: the
    model when its prices are finite, and never another payload. *)
Lemma answer_of_dumps_finite (B : string) (Y now_ms : Z) (p : ChartPayload decimal) :
  finite_prices p ->
  answer_of_row (lib := library) (Some (Row B Y (dumps p) now_ms)) = Return p.
Proof.
  intros H. unfold answer_of_row. simpl.
  rewrite loads_dumps, nullify_model_dump by done.
  by rewrite (validate_model_dump (lib := library) p reference_exact_scalars).
Qed.

Lemma answer_of_dumps_only (B : string) (Y now_ms : Z) (p p' : ChartPayload decimal) :
  answer_of_row (lib := library) (Some (Row B Y (dumps p) now_ms)) = Return p' ->
  p' = p /\ finite_prices p.
Proof.
  unfold answer_of_row. simpl. rewrite loads_dumps.
  destruct (validate_ChartPayload _) as [p0|] eqn:E; [|done].
  apply validate_ChartPayload_nullify in E as [-> Hfin]. by intros [= <-].
Qed.

(** A row that holds the text of a model with a price that is not finite
    is no longer the text of a model. *)
Lemma answer_of_dumps_infinite (B : string) (Y now_ms : Z) (p : ChartPayload decimal) :
  ~ finite_prices p ->
  answer_of_row (lib := library) (Some (Row B Y (dumps p) now_ms)) =
  Raise ResponseValidationError.
Proof.
  intros Hinf. unfold answer_of_row. simpl. rewrite loads_dumps.
  destruct (validate_ChartPayload _) as [p0|] eqn:E; [|done].
  by apply validate_ChartPayload_nullify in E as [_ Hfin].
Qed.

End ReferenceFacts.

(** ** The round trip through the store *)

Section RoundTrip.

Import Reference.

Context {env : Environment}.

(** C1, as the code has it.  Round trip: for a payload [P] whose basketId
    is [B] and whose prices are all finite, and a year [Y] that fits 64
    bits, the write of [(B, Y, P)] succeeds, and a read of [(B, Y)] that
    follows it with an accepted credential, whatever the clock shows by
    then, returns [P].  The text is written by pydantic's writer and read
    back by the reader of [json]. *)
Theorem write_then_read_round_trip (B : string) (Y : Z) (P : ChartPayload decimal)
    (xw xr : option string) (w : world) (t : table) (later : Z) :
  finite_prices P -> fits_int64 Y = true ->
  chart_cache w = Some t ->
  basketId P = B -> accepts xw -> accepts xr ->
  fst (upsert_chart (lib := library) B Y P xw w) =
    Return {| ok := true; updatedAtMs := clock_ms w |} /\
  fst (GET_charts (lib := library)
         {| get_basket_id := B; get_year := Some Y; get_x_api_key := xr |}
         (set_clock later (snd (upsert_chart (lib := library) B Y P xw w)))) =
  Return P.
Proof.
  intros Hfin Hfit Ht Hb Haw Har.
  destruct (read_of_written (lib := library) B Y P xw xr w t later)
    as [Hput Hget]; try done.
  split; [exact Hput|]. rewrite Hget. by apply answer_of_dumps_finite.
Qed.

End RoundTrip.

(** ** The properties on the reference library *)

Section Scenario.

Import Reference.

Local Abbreviation key_ok := (Some "s3cret").

(** The service has started on a new file. *)
Local Abbreviation w0 := (started 1700000000000).

Local Abbreviation get_tech5 Y x_api_key :=
  {| get_basket_id := "tech-5"; get_year := Some Y; get_x_api_key := x_api_key |}.

Lemma finite_prices_tech5 : finite_prices tech5.
Proof.
  unfold finite_prices. simpl. constructor; [|constructor].
  apply map_Forall_to_list. vm_compute. repeat constructor.
Qed.

(** The example scenario: [tech-5] is written for 2024 and read back. *)
Lemma write_then_read_round_trip_witness :
  finite_prices tech5 /\
  fits_int64 2024 = true /\
  accepts (env := locked) key_ok /\
  fst (upsert_chart (lib := library) (env := locked)
         "tech-5" 2024 tech5 key_ok w0) =
    Return {| ok := true; updatedAtMs := 1700000000000 |} /\
  fst (GET_charts (lib := library) (env := locked) (get_tech5 2024 key_ok)
         (set_clock 1700000000500
            (snd (upsert_chart (lib := library) (env := locked)
                    "tech-5" 2024 tech5 key_ok w0)))) = Return tech5.
Proof.
  split; [exact finite_prices_tech5|].
  split; [reflexivity|].
  split; [right; reflexivity|].
  apply (write_then_read_round_trip (env := locked)
           "tech-5" 2024 tech5 key_ok key_ok w0 [] 1700000000500).
  - exact finite_prices_tech5.
  - reflexivity.
  - reflexivity.
  - reflexivity.
  - right. reflexivity.
  - right. reflexivity.
Defined.

(** C1 fails on the code in two ways.  A price beyond the largest double
    is a valid price: the body validates and the write is answered 200,
    but pydantic writes the price as [null], which is no float, and the
    read that follows is answered 500.  And a year that does not fit 64
    bits cannot be bound to the statement: the write itself is answered
    500. *)
Lemma round_trip_needs_finite_prices_and_int64_year :
  let body :=
    PDict [("basketId", PStr "tech-5");
           ("data",
            PList [PDict [("timestamp", PInt 1700000000000);
                          ("prices",
                           PDict [("AAPL", PFloat (Infinite false))])]])] in
  let written := upsert_chart (lib := library) (env := locked)
                   "tech-5" 2024 overflowing key_ok w0 in
  validate_ChartPayload (lib := library) body = Some overflowing /\
  fst written = Return {| ok := true; updatedAtMs := 1700000000000 |} /\
  stored ("tech-5", 2024) (snd written) =
    Some (Row "tech-5" 2024 (dumps overflowing) 1700000000000) /\
  loads (dumps overflowing) =
    Some (PDict [("basketId", PStr "tech-5");
                 ("data",
                  PList [PDict [("timestamp", PInt 1700000000000);
                                ("prices", PDict [("AAPL", PNone)])]])]) /\
  fst (GET_charts (lib := library) (env := locked) (get_tech5 2024 key_ok)
         (snd written)) = Raise ResponseValidationError /\
  fst (upsert_chart (lib := library) (env := locked)
         "tech-5" 9223372036854775808 tech5 key_ok w0) = Raise OverflowError.
Proof.
  intros body written. split_and!; vm_compute; reflexivity.
Qed.

(** Without a secret a request that carries no key passes the gate; with
    the secret set, a write without a key and a read with a wrong key are
    answered 401 and the world is as it was. *)
Lemma authorization_gate_witness :
  require_api_key (env := open) None w0 = (Return tt, w0) /\
  upsert_chart (lib := library) (env := locked) "tech-5" 2024 tech5 None w0 =
    (Raise (HTTPException 401 "Unauthorized"), w0) /\
  get_chart (lib := library) (env := locked) "tech-5" 2024 (Some "guess") w0 =
    (Raise (HTTPException 401 "Unauthorized"), w0).
Proof.
  split; [|split].
  - apply (proj1 (authorization_gate (lib := library) (env := open) None w0)).
    left. reflexivity.
  - apply (proj2 (authorization_gate (lib := library) (env := locked) None w0)
             "s3cret"); [reflexivity | discriminate | discriminate | exact PNone].
  - apply (proj2 (authorization_gate (lib := library) (env := locked)
                    (Some "guess") w0) "s3cret");
      [reflexivity | discriminate | discriminate].
Defined.

(** C2 fails on the code: with the secret set, a read that carries no key
    and whose year is not an integer is answered 422 by the validation of
    the path, not 401 by the gate. *)
Lemma gate_is_not_before_path_validation :
  let rq := {| get_basket_id := "tech-5"; get_year := None;
               get_x_api_key := None |} in
  API_KEY (Environment := locked) = Some "s3cret" /\
  get_x_api_key rq ≠ Some "s3cret" /\
  fst (GET_charts (lib := library) (env := locked) rq w0) =
    Raise RequestValidationError /\
  http_status (fst (GET_charts (lib := library) (env := locked) rq w0)) = 422 /\
  fst (GET_charts (lib := library) (env := locked) rq w0) ≠
    Raise (HTTPException 401 "Unauthorized").
Proof.
  intros rq. split; [reflexivity|]. split; [discriminate|].
  split; [reflexivity|]. split; [reflexivity|]. discriminate.
Qed.

Local Abbreviation put_tech5 Y body :=
  {| put_basket_id := "tech-5"; put_year := Some Y;
     put_x_api_key := key_ok; put_body := Some body |}.

(** Two writes of the same key and a read in between leave one row. *)
Lemma one_row_per_key_witness :
  exists t,
    chart_cache
      (run (lib := library) (env := locked)
         [Put (put_tech5 2024 (model_dump tech5));
          Get (get_tech5 2024 key_ok);
          Tick 1700000000500;
          Put (put_tech5 2024 (model_dump tech5))] w0) = Some t /\
    NoDup (keys t) /\ length t = 1%nat.
Proof.
  destruct (one_row_per_key (lib := library) (env := locked) 1700000000000
              [Put (put_tech5 2024 (model_dump tech5));
               Get (get_tech5 2024 key_ok);
               Tick 1700000000500;
               Put (put_tech5 2024 (model_dump tech5))]) as (t & Ht & Hnd & _).
  exists t. split; [exact Ht|]. split; [exact Hnd|].
  vm_compute in Ht. injection Ht as <-. reflexivity.
Defined.

(** A payload of another basket sent to the path of [tech-5]. *)
Lemma basket_id_mismatch_rejected_witness :
  let other := {| basketId := "energy-3"; data := data tech5 |} in
  PUT_charts (lib := library) (env := locked) (put_tech5 2024 (model_dump other)) w0 =
  (Raise (HTTPException 400 "basketId mismatch"), w0).
Proof.
  intros other.
  apply (basket_id_mismatch_rejected (lib := library) (env := locked)
           (put_tech5 2024 (model_dump other)) 2024 other w0).
  - reflexivity.
  - vm_compute. reflexivity.
  - right. reflexivity.
  - discriminate.
Defined.

(** A row whose text is JSON but not a chart payload. *)
Lemma corrupt_payload_is_500_witness :
  let w := with_table [Row "tech-5" 2024 "[]" 1700000000000] w0 in
  http_status
    (fst (GET_charts (lib := library) (env := locked) (get_tech5 2024 key_ok) w)) = 500.
Proof.
  intros w.
  apply (corrupt_payload_is_500 (lib := library) (env := locked)
           (get_tech5 2024 key_ok) 2024 w (Row "tech-5" 2024 "[]" 1700000000000)).
  - reflexivity.
  - right. reflexivity.
  - reflexivity.
  - vm_compute. reflexivity.
Defined.

(** After a write for 2024, and a write for 2025 that the gate has
    rejected, the year 2025 is still not found. *)
Lemma never_written_is_404_witness :
  let rejected := {| put_basket_id := "tech-5"; put_year := Some 2025;
                     put_x_api_key := Some "guess";
                     put_body := Some (model_dump tech5) |} in
  fst (GET_charts (lib := library) (env := locked) (get_tech5 2025 key_ok)
         (run (lib := library) (env := locked)
            [Put (put_tech5 2024 (model_dump tech5)); Put rejected;
             Tick 1700000000500; Get (get_tech5 2024 key_ok)] w0)) =
  Raise (HTTPException 404 "Not found").
Proof.
  intros rejected.
  apply (never_written_is_404 (lib := library) (env := locked) 1700000000000
           [Put (put_tech5 2024 (model_dump tech5)); Put rejected;
            Tick 1700000000500; Get (get_tech5 2024 key_ok)]
           (get_tech5 2025 key_ok) 2025).
  - reflexivity.
  - reflexivity.
  - right. reflexivity.
  - simpl. split_and!; try tauto.
    + intros [[_ H] _]. discriminate H.
    + intros [_ [res H]]. vm_compute in H. discriminate H.
Defined.

(** C6 fails on the code: on a new database file, where nothing has been
    written, a read with the accepted key for the year 2^63, which does
    not fit 64 bits, is answered 500, not 404. *)
Lemma wide_year_is_500_not_404 :
  let rq := get_tech5 9223372036854775808 key_ok in
  let w := run (lib := library) (env := locked) [] w0 in
  chart_cache w = Some [] /\
  fst (GET_charts (lib := library) (env := locked) rq w) = Raise OverflowError /\
  http_status (fst (GET_charts (lib := library) (env := locked) rq w)) = 500 /\
  fst (GET_charts (lib := library) (env := locked) rq w) ≠
    Raise (HTTPException 404 "Not found").
Proof.
  intros rq w. split; [reflexivity|]. split; [reflexivity|].
  split; [reflexivity|]. discriminate.
Qed.

(** A write for 2025 leaves the row of 2024 and what a read of it
    answers. *)
Lemma write_leaves_other_keys_witness :
  let w1 := snd (upsert_chart (lib := library) (env := locked)
                   "tech-5" 2024 tech5 key_ok w0) in
  let w2 := snd (upsert_chart (lib := library) (env := locked)
                   "tech-5" 2025 tech5 key_ok (set_clock 1700000000500 w1)) in
  stored ("tech-5", 2024) w2 =
    Some (Row "tech-5" 2024 (dumps tech5) 1700000000000) /\
  fst (GET_charts (lib := library) (env := locked) (get_tech5 2024 key_ok) w2) =
    Return tech5.
Proof.
  intros w1 w2.
  destruct (write_leaves_other_keys (lib := library) (env := locked)
              "tech-5" 2025 "tech-5" 2024 tech5 key_ok
              (set_clock 1700000000500 w1)
              {| ok := true; updatedAtMs := 1700000000500 |} w2) as [Hs Hg].
  - right. discriminate.
  - vm_compute. reflexivity.
  - split.
    + rewrite Hs. vm_compute. reflexivity.
    + rewrite (Hg (get_tech5 2024 key_ok)) by reflexivity.
      vm_compute. reflexivity.
Defined.

(** The same payload written at two times. *)
Lemma write_twice_witness :
  let first := upsert_chart (lib := library) (env := locked)
                 "tech-5" 2024 tech5 key_ok w0 in
  let second := upsert_chart (lib := library) (env := locked)
                  "tech-5" 2024 tech5 key_ok
                  (set_clock 1700000000500 (snd first)) in
  fst first = Return {| ok := true; updatedAtMs := 1700000000000 |} /\
  fst second = Return {| ok := true; updatedAtMs := 1700000000500 |} /\
  stored ("tech-5", 2024) (snd second) =
    Some (Row "tech-5" 2024 (dumps tech5) 1700000000500) /\
  payload <$> stored ("tech-5", 2024) (snd second) =
    payload <$> stored ("tech-5", 2024) (snd first) /\
  chart_cache (snd second) =
    chart_cache (snd (upsert_chart (lib := library) (env := locked)
                        "tech-5" 2024 tech5 key_ok (set_clock 1700000000500 w0))).
Proof.
  apply (write_twice (lib := library) (env := locked)
           "tech-5" 2024 tech5 key_ok key_ok w0 [] 1700000000500).
  - reflexivity.
  - reflexivity.
  - reflexivity.
  - right. reflexivity.
  - right. reflexivity.
Defined.

(** The body [{}] without a key, and the payload of another basket without
    a key. *)
Lemma put_validates_then_authorizes_witness :
  let other := {| basketId := "energy-3"; data := data tech5 |} in
  PUT_charts (lib := library) (env := locked)
    {| put_basket_id := "tech-5"; put_year := Some 2024;
       put_x_api_key := None; put_body := Some (PDict []) |} w0 =
    (Raise RequestValidationError, w0) /\
  PUT_charts (lib := library) (env := locked)
    {| put_basket_id := "tech-5"; put_year := Some 2024;
       put_x_api_key := None; put_body := Some (model_dump other) |} w0 =
    (Raise (HTTPException 401 "Unauthorized"), w0).
Proof.
  intros other. split.
  - apply (proj1 (put_validates_then_authorizes (lib := library) (env := locked)
                    {| put_basket_id := "tech-5"; put_year := Some 2024;
                       put_x_api_key := None; put_body := Some (PDict []) |} w0)).
    right. reflexivity.
  - apply (proj2 (put_validates_then_authorizes (lib := library) (env := locked)
                    {| put_basket_id := "tech-5"; put_year := Some 2024;
                       put_x_api_key := None;
                       put_body := Some (model_dump other) |} w0) 2024 other).
    + reflexivity.
    + vm_compute. reflexivity.
    + intros [H|H]; discriminate H.
Defined.

(** C9 fails on the code: with the secret set, a write that carries no key
    and whose body is the JSON object [{}] is answered 422 by the validation
    of the body, not 401 by the gate. *)
Lemma gate_is_not_before_body_validation :
  let rq := {| put_basket_id := "tech-5"; put_year := Some 2024;
               put_x_api_key := None; put_body := Some (PDict []) |} in
  API_KEY (Environment := locked) = Some "s3cret" /\
  put_x_api_key rq ≠ Some "s3cret" /\
  fst (PUT_charts (lib := library) (env := locked) rq w0) =
    Raise RequestValidationError /\
  http_status (fst (PUT_charts (lib := library) (env := locked) rq w0)) = 422 /\
  fst (PUT_charts (lib := library) (env := locked) rq w0) ≠
    Raise (HTTPException 401 "Unauthorized").
Proof.
  intros rq. split; [reflexivity|]. split; [discriminate|].
  split; [reflexivity|]. split; [reflexivity|]. discriminate.
Qed.

(** A body with an item [note] in the document and an item [volume] in the
    point is stored as the text of [tech5], as the body without them is. *)
Lemma put_stores_validated_model_witness :
  let body :=
    PDict [("basketId", PStr "tech-5");
           ("note", PStr "draft");
           ("data",
            PList [PDict [("timestamp", PInt 1700000000000);
                          ("volume", PInt 7);
                          ("prices",
                           PDict [("AAPL", PFloat (Decimal 1905 (-1)));
                                  ("MSFT", PFloat (Decimal 4102 (-1)))])]])] in
  let plain :=
    PDict [("basketId", PStr "tech-5");
           ("data",
            PList [PDict [("timestamp", PInt 1700000000000);
                          ("prices",
                           PDict [("AAPL", PFloat (Decimal 1905 (-1)));
                                  ("MSFT", PFloat (Decimal 4102 (-1)))])]])] in
  let w' := snd (PUT_charts (lib := library) (env := locked) (put_tech5 2024 body) w0) in
  stored ("tech-5", 2024) w' =
    Some (Row "tech-5" 2024 (dumps tech5) 1700000000000) /\
  PUT_charts (lib := library) (env := locked) (put_tech5 2024 plain) w0 =
    PUT_charts (lib := library) (env := locked) (put_tech5 2024 body) w0 /\
  fst (GET_charts (lib := library) (env := locked) (get_tech5 2024 key_ok)
         (set_clock 1700000000500 w')) =
    Return tech5.
Proof.
  intros body plain w'.
  destruct (put_stores_validated_model (lib := library) (env := locked)
              (put_tech5 2024 body) 2024 body tech5 w0
              {| ok := true; updatedAtMs := 1700000000000 |})
    as (Hs & Hsame & Hget).
  - reflexivity.
  - reflexivity.
  - vm_compute. reflexivity.
  - vm_compute. reflexivity.
  - split; [exact Hs|]. split.
    + refine (Hsame plain _).
      vm_compute. split; [reflexivity|].
      constructor; [|constructor]. split; reflexivity.
    + refine (eq_trans (Hget key_ok 1700000000500 _) _).
      * right. reflexivity.
      * vm_compute. reflexivity.
Defined.

(** The example scenario to its end: the payload is written again with a
    second point, and the read returns the two points. *)
Example second_write_replaces_the_first :
  let more :=
    {| basketId := "tech-5";
       data := data tech5 ++
               [ {| timestamp := 1700000060000;
                    prices := <["AAPL" := Decimal 1911 (-1)]> ∅ |} ] |} in
  fst (GET_charts (lib := library) (env := locked) (get_tech5 2024 key_ok)
         (run (lib := library) (env := locked)
            [Put (put_tech5 2024 (model_dump tech5));
             Tick 1700000060000;
             Put (put_tech5 2024 (model_dump more))] w0)) = Return more.
Proof. vm_compute. reflexivity. Qed.

(** A row whose text is not JSON is answered by the handler itself. *)
Example corrupted_text_is_reported :
  fst (GET_charts (lib := library) (env := locked) (get_tech5 2024 key_ok)
         (with_table [Row "tech-5" 2024 "not json" 1700000000000] w0)) =
  Raise (HTTPException 500 "Corrupted payload").
Proof. vm_compute. reflexivity. Qed.

End Scenario.

(** ** The endpoints, case by case *)

Section EndpointFacts.

Context {float : Type} {lib : Library float} {env : Environment}.

Local Abbreviation pyval := (pyval float).
Local Abbreviation ChartPayload := (ChartPayload float).
Local Abbreviation put_request := (put_request float).
Local Abbreviation event := (event float).

Implicit Types (w : world) (t : table) (B : string) (Y : Z) (P : ChartPayload).

(** The five ways a read goes. *)
Lemma GET_charts_cases (rq : get_request) w :
  (get_year rq = None /\ GET_charts rq w = (Raise RequestValidationError, w)) \/
  (exists Y, get_year rq = Some Y /\ ~ accepts (get_x_api_key rq) /\
     GET_charts rq w = (Raise (HTTPException 401 "Unauthorized"), w)) \/
  (exists Y, get_year rq = Some Y /\ accepts (get_x_api_key rq) /\
     chart_cache w = None /\
     GET_charts rq w =
     (Raise OperationalError,
      traced [Connect; Execute (SelectPayload (get_basket_id rq, Y)); Close] w)) \/
  (exists Y t, get_year rq = Some Y /\ accepts (get_x_api_key rq) /\
     chart_cache w = Some t /\ fits_int64 Y = false /\
     GET_charts rq w =
     (Raise OverflowError,
      traced [Connect; Execute (SelectPayload (get_basket_id rq, Y)); Close] w)) \/
  (exists Y t, get_year rq = Some Y /\ accepts (get_x_api_key rq) /\
     chart_cache w = Some t /\ fits_int64 Y = true /\
     GET_charts rq w =
     (answer_of_row (fetchone (get_basket_id rq, Y) t),
      traced [Connect; Execute (SelectPayload (get_basket_id rq, Y)); Close] w)).
Proof.
  unfold GET_charts. destruct (get_year rq) as [Y|]; [|by left].
  right. unfold bind. destruct (accepts_dec (get_x_api_key rq)) as [Ha|Ha].
  - right. destruct (chart_cache w) as [t|] eqn:Ht.
    + right. destruct (fits_int64 Y) eqn:Hfit.
      * right. exists Y, t. split_and!; try done.
        rewrite (get_chart_accepted _ _ _ _ t) by done. unfold answer_of_row.
        destruct (fetchone _ t) as [r|]; [|done].
        destruct (json_loads (payload r)) as [v|]; [|done].
        by destruct (validate_ChartPayload v).
      * left. exists Y, t. split_and!; try done.
        by rewrite (get_chart_overflow _ _ _ _ t).
    + left. exists Y. split_and!; try done. by rewrite get_chart_no_table.
  - left. exists Y. split_and!; try done. by rewrite get_chart_rejected.
Qed.

(** The six ways a write goes. *)
Lemma PUT_charts_cases (rq : put_request) w :
  ((put_year rq = None \/ put_body rq ≫= validate_ChartPayload = None) /\
     PUT_charts rq w = (Raise RequestValidationError, w)) \/
  (exists Y P, put_year rq = Some Y /\
     put_body rq ≫= validate_ChartPayload = Some P /\
     ((~ accepts (put_x_api_key rq) /\
       PUT_charts rq w = (Raise (HTTPException 401 "Unauthorized"), w)) \/
      (accepts (put_x_api_key rq) /\ basketId P ≠ put_basket_id rq /\
       PUT_charts rq w = (Raise (HTTPException 400 "basketId mismatch"), w)) \/
      (accepts (put_x_api_key rq) /\ basketId P = put_basket_id rq /\
       chart_cache w = None /\
       PUT_charts rq w =
       (Raise OperationalError,
        traced [Connect;
                Execute (InsertOnConflictUpdate
                           (Row (put_basket_id rq) Y (model_dump_json P) (clock_ms w)));
                Close] w)) \/
      (exists t, accepts (put_x_api_key rq) /\ basketId P = put_basket_id rq /\
       chart_cache w = Some t /\ fits_int64 Y = false /\
       PUT_charts rq w =
       (Raise OverflowError,
        traced [Connect;
                Execute (InsertOnConflictUpdate
                           (Row (put_basket_id rq) Y (model_dump_json P) (clock_ms w)));
                Close] w)) \/
      (exists t, accepts (put_x_api_key rq) /\ basketId P = put_basket_id rq /\
       chart_cache w = Some t /\ fits_int64 Y = true /\
       PUT_charts rq w =
       (Return {| ok := true; updatedAtMs := clock_ms w |},
        traced [Connect;
                Execute (InsertOnConflictUpdate
                           (Row (put_basket_id rq) Y (model_dump_json P) (clock_ms w)));
                Commit; Close]
          (with_table
             (insert_on_conflict_update
                (Row (put_basket_id rq) Y (model_dump_json P) (clock_ms w)) t) w))))).
Proof.
  unfold PUT_charts. destruct (put_year rq) as [Y|]; [|left; split; [by left | done]].
  destruct (put_body rq ≫= validate_ChartPayload) as [P|];
    [|left; split; [by right | done]].
  right. exists Y, P. split_and!; try done.
  destruct (accepts_dec (put_x_api_key rq)) as [Ha|Ha].
  - right. destruct (decide (basketId P = put_basket_id rq)) as [Hb|Hb].
    + right. destruct (chart_cache w) as [t|] eqn:Ht.
      * right. destruct (fits_int64 Y) eqn:Hfit.
        -- right. exists t. split_and!; try done.
           by rewrite (upsert_chart_accepted _ _ _ _ _ t).
        -- left. exists t. split_and!; try done.
           by rewrite (upsert_chart_overflow _ _ _ _ _ t).
      * left. split_and!; try done. by rewrite upsert_chart_no_table.
    + left. split_and!; try done. by rewrite upsert_chart_mismatch.
  - left. split; [done|]. by rewrite upsert_chart_rejected.
Qed.

Lemma bracketed_app (connected : bool) (tr1 tr2 : list db_event) :
  bracketed connected tr1 = true ->
  bracketed connected (tr1 ++ tr2) = bracketed false tr2.
Proof.
  revert connected. induction tr1 as [|e tr1 IH]; intros connected; simpl.
  - by destruct connected.
  - destruct e, connected; simpl; try done; apply IH.
Qed.

(** What a step adds to the trace is nothing or one whole connection. *)
Lemma step_trace w (e : event) :
  exists tr, db_trace (step w e) = (db_trace w ++ tr)%list /\ bracketed false tr = true.
Proof.
  destruct e as [now_ms| |rq|rq]; simpl.
  - exists []. by rewrite app_nil_r.
  - exists []. by rewrite app_nil_r.
  - destruct (GET_charts_cases rq w)
      as [[_ ->]|[(Y & _ & _ & ->)|[(Y & _ & _ & _ & ->)|
          [(Y & t & _ & _ & _ & _ & ->)|(Y & t & _ & _ & _ & _ & ->)]]]];
      simpl;
      first [ by exists []; rewrite app_nil_r
            | eexists; split; reflexivity ].
  - destruct (PUT_charts_cases rq w)
      as [[_ ->]|(Y & P & _ & _ & [[_ ->]|[(_ & _ & ->)|[(_ & _ & _ & ->)|
          [(t & _ & _ & _ & _ & ->)|(t & _ & _ & _ & _ & ->)]]]])];
      simpl;
      first [ by exists []; rewrite app_nil_r
            | eexists; split; reflexivity ].
Qed.

End EndpointFacts.

(** ** More properties of the service *)

Section Further.

Context {float : Type} {lib : Library float} {env : Environment}.

Local Abbreviation pyval := (pyval float).
Local Abbreviation ChartPayload := (ChartPayload float).
Local Abbreviation put_request := (put_request float).
Local Abbreviation event := (event float).

Implicit Types (w : world) (t : table) (B : string) (Y : Z) (P : ChartPayload).

(** No request and no tick of the clock is seen in the answer of a read
    unless it changes the table. *)
Lemma GET_charts_ext (rq : get_request) w w' :
  chart_cache w = chart_cache w' ->
  fst (GET_charts rq w) = fst (GET_charts rq w').
Proof.
  intros Ht.
  destruct (GET_charts_cases rq w)
    as [[Hy ->]|[(Y & Hy & Ha & ->)|[(Y & Hy & Ha & Hn & ->)|
        [(Y & t & Hy & Ha & Hs & Hf & ->)|(Y & t & Hy & Ha & Hs & Hf & ->)]]]];
  destruct (GET_charts_cases rq w')
    as [[Hy' ->]|[(Y' & Hy' & Ha' & ->)|[(Y' & Hy' & Ha' & Hn' & ->)|
        [(Y' & t' & Hy' & Ha' & Hs' & Hf' & ->)|(Y' & t' & Hy' & Ha' & Hs' & Hf' & ->)]]]];
  simpl; try done; congruence.
Qed.

(** The answer of a write and the table it leaves depend on the table and
    on the clock it finds. *)
Lemma PUT_charts_ext (rq : put_request) w w' :
  chart_cache w = chart_cache w' -> clock_ms w = clock_ms w' ->
  fst (PUT_charts rq w) = fst (PUT_charts rq w') /\
  chart_cache (snd (PUT_charts rq w)) = chart_cache (snd (PUT_charts rq w')).
Proof.
  intros Ht Hc.
  destruct (PUT_charts_cases rq w)
    as [[Hv ->]|(Y & P & Hy & Hp &
         [[Ha ->]|[(Ha & Hb & ->)|[(Ha & Hb & Hn & ->)|
          [(t & Ha & Hb & Hs & Hf & ->)|(t & Ha & Hb & Hs & Hf & ->)]]]])];
  destruct (PUT_charts_cases rq w')
    as [[Hv' ->]|(Y' & P' & Hy' & Hp' &
         [[Ha' ->]|[(Ha' & Hb' & ->)|[(Ha' & Hb' & Hn' & ->)|
          [(t' & Ha' & Hb' & Hs' & Hf' & ->)|(t' & Ha' & Hb' & Hs' & Hf' & ->)]]]])];
  simpl; try done; try congruence;
    try (destruct Hv as [Hv|Hv]; congruence);
    try (destruct Hv' as [Hv'|Hv']; congruence).
  all: assert (Y' = Y) as -> by congruence; assert (P' = P) as -> by congruence;
    assert (t' = t) as -> by congruence; by rewrite Hc.
Qed.

Lemma step_clock w (e : event) :
  clock_ms (step w e) = match e with Tick now_ms => now_ms | _ => clock_ms w end.
Proof.
  destruct e as [now_ms| |rq|rq]; simpl; try done.
  - destruct (GET_charts_cases rq w)
      as [[_ ->]|[(Y & _ & _ & ->)|[(Y & _ & _ & _ & ->)|
          [(Y & t & _ & _ & _ & _ & ->)|(Y & t & _ & _ & _ & _ & ->)]]]];
      done.
  - destruct (PUT_charts_cases rq w)
      as [[_ ->]|(Y & P & _ & _ & [[_ ->]|[(_ & _ & ->)|[(_ & _ & _ & ->)|
          [(t & _ & _ & _ & _ & ->)|(t & _ & _ & _ & _ & ->)]]]])];
      done.
Qed.

(** Two worlds with the same table and clock stay so under a step. *)
Lemma step_ext w w' (e : event) :
  chart_cache w = chart_cache w' -> clock_ms w = clock_ms w' ->
  chart_cache (step w e) = chart_cache (step w' e) /\
  clock_ms (step w e) = clock_ms (step w' e).
Proof.
  intros Ht Hc. split.
  - destruct e as [now_ms| |rq|rq]; simpl; try done.
    + by rewrite !GET_charts_table.
    + by apply PUT_charts_ext.
  - rewrite !step_clock. by destruct e.
Qed.

(** X1. [init_db] is safe on every start: it succeeds, it creates the empty
    table on a new file and leaves an existing table with all its rows, so
    a second call changes nothing; the clock is not touched. *)
Theorem init_db_keeps_the_table (w : world) :
  fst (init_db w) = Return tt /\
  chart_cache (snd (init_db w)) = Some (default [] (chart_cache w)) /\
  (forall k, stored k (snd (init_db w)) = stored k w) /\
  chart_cache (snd (init_db (snd (init_db w)))) = chart_cache (snd (init_db w)) /\
  clock_ms (snd (init_db w)) = clock_ms w.
Proof.
  destruct w as [[t|] tr now_ms]; split_and!; try reflexivity.
Qed.

(** X2. No connection outlives its request: when the trace of the world is
    a sequence of whole connections, it is so again after the start of the
    process and any run of requests, whatever they are answered; and every
    statement and commit of the run is on a connection that is open. *)
Theorem connections_are_released (es : list event) w :
  bracketed false (db_trace w) = true ->
  bracketed false (db_trace (run es (snd (on_startup w)))) = true.
Proof.
  intros Hw.
  assert (Hs : bracketed false (db_trace (snd (on_startup w))) = true).
  { destruct w as [[t|] tr now_ms]; simpl in *;
      rewrite <- !app_assoc; by rewrite bracketed_app. }
  clear Hw. revert Hs. generalize (snd (on_startup w)). clear w.
  induction es as [|e es IH]; intros w Hw; simpl; [done|].
  apply IH. destruct (step_trace w e) as (tr & -> & Htr).
  by rewrite bracketed_app.
Qed.

(** X3. Health checks and reads leave no mark: [health] answers with the
    clock in every world, without a key and without a table, and leaves the
    world as it is; and the table and the clock at the end of a run are
    those of the run without its reads and health checks. *)
Theorem reads_leave_no_mark (es : list event) w :
  health w = (Return {| health_ok := true; ts := clock_ms w |}, w) /\
  chart_cache (run (List.filter mutates es) w) = chart_cache (run es w) /\
  clock_ms (run (List.filter mutates es) w) = clock_ms (run es w).
Proof.
  split; [reflexivity|].
  assert (H : forall w1 w2, chart_cache w1 = chart_cache w2 -> clock_ms w1 = clock_ms w2 ->
            chart_cache (run (List.filter mutates es) w1) = chart_cache (run es w2) /\
            clock_ms (run (List.filter mutates es) w1) = clock_ms (run es w2)).
  { induction es as [|e es IH]; intros w1 w2 Ht Hc; simpl; [done|].
    destruct (mutates e) eqn:He; simpl.
    - destruct (step_ext w1 w2 e Ht Hc). by apply IH.
    - apply IH.
      + destruct e as [now_ms| |rq|rq]; try discriminate He; simpl; [done|].
        by rewrite GET_charts_table.
      + rewrite step_clock. by destruct e. }
  by apply H.
Qed.

(** X4. A read changes neither the table nor the clock, whatever it is
    answered, so it changes no later answer: a read and a write that come
    after it are answered as they would have been without it, and the write
    leaves the same table. *)
Theorem get_is_read_only (rq : get_request) (later : get_request)
    (write : put_request) w :
  chart_cache (snd (GET_charts rq w)) = chart_cache w /\
  clock_ms (snd (GET_charts rq w)) = clock_ms w /\
  fst (GET_charts later (snd (GET_charts rq w))) = fst (GET_charts later w) /\
  fst (PUT_charts write (snd (GET_charts rq w))) = fst (PUT_charts write w) /\
  chart_cache (snd (PUT_charts write (snd (GET_charts rq w)))) =
    chart_cache (snd (PUT_charts write w)).
Proof.
  assert (Ht : chart_cache (snd (GET_charts rq w)) = chart_cache w)
    by apply GET_charts_table.
  assert (Hc : clock_ms (snd (GET_charts rq w)) = clock_ms w)
    by apply (step_clock w (Get rq)).
  split_and!; try done.
  - by apply GET_charts_ext.
  - by apply PUT_charts_ext.
  - by apply PUT_charts_ext.
Qed.


Lemma upsert_new_key (new : row) t :
  fetchone (key_of new) t = None ->
  insert_on_conflict_update new t = (t ++ [new])%list.
Proof.
  induction t as [|r t IH]; simpl; [done|].
  destruct (has_key (key_of new) r); [done|]. intros H. by rewrite IH.
Qed.


(** X6. Before [init_db] has run there is no table: a read and a write that
    pass validation and the gate are answered 500, and the write does not
    create the table. *)
Theorem requests_before_startup_fail (rq : get_request) (write : put_request)
    Y Y' P w :
  chart_cache w = None ->
  get_year rq = Some Y -> accepts (get_x_api_key rq) ->
  put_year write = Some Y' ->
  put_body write ≫= validate_ChartPayload = Some P ->
  accepts (put_x_api_key write) -> basketId P = put_basket_id write ->
  fst (GET_charts rq w) = Raise OperationalError /\
  fst (PUT_charts write w) = Raise OperationalError /\
  http_status (fst (GET_charts rq w)) = 500 /\
  http_status (fst (PUT_charts write w)) = 500 /\
  chart_cache (snd (PUT_charts write w)) = None.
Proof.
  intros Hn Hy Ha Hy' Hp Ha' Hb.
  assert (Hg : fst (GET_charts rq w) = Raise OperationalError).
  { destruct (GET_charts_cases rq w)
      as [[? ->]|[(? & ? & ? & ->)|[(? & ? & ? & ? & ->)|
          [(? & t & ? & ? & ? & ? & ->)|(? & t & ? & ? & ? & ? & ->)]]]];
      simpl; congruence. }
  assert (Hput : PUT_charts write w =
                 upsert_chart (put_basket_id write) Y' P (put_x_api_key write) w).
  { unfold PUT_charts. by rewrite Hy', Hp. }
  rewrite Hg, Hput, upsert_chart_no_table by done. simpl. done.
Qed.

(** X7. The last write wins: after a write of [P1] and then a write of [P2]
    to the same key, of which the year fits 64 bits, whatever the clock
    shows at each, both writes are answered 200, the table is the one the
    second write alone would have left, and the row of the key holds the
    text and the time of the second. *)
Theorem last_write_wins B Y P1 P2 (x1 x2 : option string) w t (now2 : Z) :
  chart_cache w = Some t -> fits_int64 Y = true ->
  basketId P1 = B -> basketId P2 = B -> accepts x1 -> accepts x2 ->
  let w1 := snd (upsert_chart B Y P1 x1 w) in
  let second := upsert_chart B Y P2 x2 (set_clock now2 w1) in
  fst (upsert_chart B Y P1 x1 w) =
    Return {| ok := true; updatedAtMs := clock_ms w |} /\
  fst second = Return {| ok := true; updatedAtMs := now2 |} /\
  chart_cache (snd second) =
    chart_cache (snd (upsert_chart B Y P2 x2 (set_clock now2 w))) /\
  stored (B, Y) (snd second) = Some (Row B Y (model_dump_json P2) now2).
Proof.
  intros Ht Hfit Hb1 Hb2 Ha1 Ha2 w1 second. unfold second, w1.
  rewrite (upsert_chart_accepted _ _ _ x1 w t) by done. simpl.
  erewrite (upsert_chart_accepted _ _ _ x2 (set_clock now2 w)) by done.
  erewrite (upsert_chart_accepted _ _ _ x2) by (done || reflexivity).
  unfold stored. simpl. rewrite Hfit.
  rewrite (upsert_upsert (Row B Y (model_dump_json P1) (clock_ms w))) by done.
  rewrite (fetchone_upsert_eq (Row B Y (model_dump_json P2) now2) t).
  done.
Qed.


(** X9. The first write of a key, of which the year fits 64 bits, is
    answered 200, adds one row at the end of the table and leaves every
    row that was there. *)
Theorem first_write_adds_one_row B Y P (x_api_key : option string) w t :
  chart_cache w = Some t -> fits_int64 Y = true -> stored (B, Y) w = None ->
  accepts x_api_key -> basketId P = B ->
  fst (upsert_chart B Y P x_api_key w) =
    Return {| ok := true; updatedAtMs := clock_ms w |} /\
  chart_cache (snd (upsert_chart B Y P x_api_key w)) =
  Some (t ++ [Row B Y (model_dump_json P) (clock_ms w)])%list.
Proof.
  intros Ht Hfit Hs Ha Hb.
  rewrite (upsert_chart_accepted _ _ _ _ _ t) by done. simpl.
  split; [done|].
  f_equal. apply upsert_new_key. unfold stored in Hs. simpl in Hs.
  rewrite Hfit, Ht in Hs. exact Hs.
Qed.

(** X10. A write is all or nothing: when it is answered 200 its parameters
    validated, the gate accepted the key, the identifiers agree, the answer
    carries the time read from the clock and the row of the key holds the
    text of the validated model and that time; when it is answered
    anything else the table is as it was. *)
Theorem put_is_all_or_nothing (rq : put_request) w :
  match fst (PUT_charts rq w) with
  | Return res =>
      exists Y P,
        put_year rq = Some Y /\
        put_body rq ≫= validate_ChartPayload = Some P /\
        accepts (put_x_api_key rq) /\
        basketId P = put_basket_id rq /\
        res = {| ok := true; updatedAtMs := clock_ms w |} /\
        stored (put_basket_id rq, Y) (snd (PUT_charts rq w)) =
          Some (Row (put_basket_id rq) Y (model_dump_json P) (clock_ms w))
  | Raise _ => chart_cache (snd (PUT_charts rq w)) = chart_cache w
  end.
Proof.
  destruct (PUT_charts_cases rq w)
    as [[_ ->]|(Y & P & Hy & Hp &
         [[_ ->]|[(_ & _ & ->)|[(_ & _ & _ & ->)|
          [(t & _ & _ & _ & _ & ->)|(t & Ha & Hb & Ht & Hfit & ->)]]]])];
    simpl; try done.
  exists Y, P. split_and!; try done. unfold stored. simpl. rewrite Hfit.
  apply (fetchone_upsert_eq
           (Row (put_basket_id rq) Y (model_dump_json P) (clock_ms w)) t).
Qed.

(** X11. 401 is answered exactly when the parameters of the request
    validate and the gate does not accept the key; the gate accepts the key
    exactly when no secret is set, or an empty one, or the key is the
    secret. *)
Theorem unauthorized_exactly_when (rq : get_request) (write : put_request) w :
  (http_status (fst (GET_charts rq w)) = 401 <->
   is_Some (get_year rq) /\ ~ accepts (get_x_api_key rq)) /\
  (http_status (fst (PUT_charts write w)) = 401 <->
   is_Some (put_year write) /\
   is_Some (put_body write ≫= validate_ChartPayload) /\
   ~ accepts (put_x_api_key write)) /\
  (forall x_api_key : option string,
     accepts x_api_key <->
     API_KEY = None \/ API_KEY = Some "" \/ x_api_key = API_KEY).
Proof.
  split_and!.
  - destruct (GET_charts_cases rq w)
      as [[Hy ->]|[(Y & Hy & Ha & ->)|[(Y & Hy & Ha & _ & ->)|
          [(Y & t & Hy & Ha & _ & _ & ->)|(Y & t & Hy & Ha & _ & _ & ->)]]]];
      simpl; rewrite Hy.
    + split; [done | intros [[? [=]] _]].
    + split; [by eauto | done].
    + split; [done | tauto].
    + split; [done | tauto].
    + split; [|tauto]. unfold answer_of_row.
      destruct (fetchone _ t) as [r|]; simpl; [|done].
      destruct (json_loads (payload r)) as [v|]; simpl; [|done].
      by destruct (validate_ChartPayload v).
  - destruct (PUT_charts_cases write w)
      as [[Hv ->]|(Y & P & Hy & Hp &
           [[Ha ->]|[(Ha & _ & ->)|[(Ha & _ & _ & ->)|
            [(t & Ha & _ & _ & _ & ->)|(t & Ha & _ & _ & _ & ->)]]]])];
      simpl.
    + split; [done|]. intros ([? Hy] & [? Hp] & _). destruct Hv; congruence.
    + rewrite Hy, Hp. split; [by eauto | done].
    + split; [done | tauto].
    + split; [done | tauto].
    + split; [done | tauto].
    + split; [done | tauto].
  - intros x_api_key. unfold accepts, not_. destruct API_KEY as [s|].
    + rewrite bool_decide_eq_true. split.
      * intros [->|H]; [right; by left | right; by right].
      * intros [H|[H|H]]; [done | left; congruence | by right].
    + split; [by left | by left].
Qed.

(** X12. A body that is not a JSON object, or lacks [basketId] or [data],
    or whose [basketId] is not a string or whose [data] is not a list, is
    answered 422 with any key, and the world is as it was. *)
Theorem malformed_body_is_422 (rq : put_request) w :
  match put_body rq with
  | Some (PDict items) =>
      match dict_get "basketId" items, dict_get "data" items with
      | Some (PStr _), Some (PList _) => False
      | _, _ => True
      end
  | _ => True
  end ->
  PUT_charts rq w = (Raise RequestValidationError, w).
Proof.
  intros H.
  assert (Hv : put_body rq ≫= validate_ChartPayload = None).
  { destruct (put_body rq) as [[ | | | | | |items]|]; try done. simpl.
    destruct (dict_get "basketId" items) as [[]|]; try done.
    destruct (dict_get "data" items) as [[]|]; done. }
  unfold PUT_charts. rewrite Hv. by destruct (put_year rq).
Qed.

(** A write that is answered 200, any run of requests that do not write
    its key, and the read of the key that follows: the read answers from
    the text of the model. *)
Lemma read_after_run B Y P (xw xr : option string) w t (es : list event) :
  chart_cache w = Some t -> basketId P = B -> fits_int64 Y = true ->
  accepts xw -> accepts xr ->
  unwritten (B, Y) es (snd (upsert_chart B Y P xw w)) ->
  fst (GET_charts {| get_basket_id := B; get_year := Some Y; get_x_api_key := xr |}
         (run es (snd (upsert_chart B Y P xw w)))) =
  answer_of_row (Some (Row B Y (model_dump_json P) (clock_ms w))).
Proof.
  intros Ht Hb Hfit Haw Har Hes.
  pose proof (run_fetchone es (snd (upsert_chart B Y P xw w)) _ Hes) as Hs.
  rewrite (upsert_chart_accepted _ _ _ _ _ t) in Hs |- * by done. simpl in Hs.
  rewrite (fetchone_upsert_eq (Row B Y (model_dump_json P) (clock_ms w)) t) in Hs.
  destruct (chart_cache (run es _)) as [t'|] eqn:Ht'; [|done]. simpl in Hs.
  erewrite GET_charts_answer; [| reflexivity | done | exact Ht'].
  rewrite Hfit. simpl. by rewrite Hs.
Qed.

(** A run keeps the rows texts of models of their basket. *)
Lemma run_rows_invariant (es : list event) w t :
  chart_cache w = Some t ->
  Forall (fun r => exists P, payload r = model_dump_json P /\
                             basketId P = basket_id r) t ->
  exists t',
    chart_cache (run es w) = Some t' /\
    Forall (fun r => exists P, payload r = model_dump_json P /\
                               basketId P = basket_id r) t'.
Proof.
  revert w t. induction es as [|e es IH]; intros w t Ht Hall; simpl; [by exists t|].
  destruct e as [now| |rq|rq]; simpl.
  - by apply (IH _ t).
  - by apply (IH _ t).
  - apply (IH _ t); [|done]. by rewrite GET_charts_table.
  - destruct (PUT_charts_cases rq w)
      as [[_ ->]|(Y & P & _ & _ &
           [[_ ->]|[(_ & _ & ->)|[(_ & _ & Hn & ->)|
            [(t0 & _ & _ & _ & _ & ->)|(t0 & _ & Hb & Ht0 & _ & ->)]]]])];
      simpl; try by apply (IH _ t).
    assert (t0 = t) as -> by congruence.
    eapply IH; [reflexivity|]. apply Forall_upsert; [| |done].
    + by exists P.
    + intros r Hr. exists P. split; [done|]. simpl.
      unfold key_of in Hr. simpl in Hr. congruence.
Qed.

(** X15. What the service stores: in every world it reaches from a new
    database file, each row of the table holds the text of a model, and
    the basketId of that model is the basket of the row. *)
Theorem stored_rows_are_serialised_models (now_ms : Z) (es : list event) :
  exists t,
    chart_cache (run es (started now_ms)) = Some t /\
    Forall (fun r => exists P, payload r = model_dump_json P /\
                               basketId P = basket_id r) t.
Proof.
  apply (run_rows_invariant es (started now_ms) []).
  - apply started_table.
  - apply Forall_nil_2.
Qed.

(** What a read returns, in a world the service reaches from a new
    database file, it reads from a row of the basket asked for that holds
    the text of a model of that basket. *)
Lemma read_of_reachable (now_ms : Z) (es : list event) (rq : get_request)
    (p : ChartPayload) :
  fst (GET_charts rq (run es (started now_ms))) = Return p ->
  exists t (r : row) P,
    chart_cache (run es (started now_ms)) = Some t /\ r ∈ t /\
    basket_id r = get_basket_id rq /\
    payload r = model_dump_json P /\ basketId P = get_basket_id rq /\
    answer_of_row (Some r) = Return p.
Proof.
  intros Hget.
  destruct (run_rows_invariant es (started now_ms) []) as (t & Ht & Hall);
    [apply started_table | apply Forall_nil_2 |].
  destruct (GET_charts_cases rq (run es (started now_ms)))
    as [[_ E]|[(Y & _ & _ & E)|[(Y & _ & _ & _ & E)|
        [(Y & t' & _ & _ & _ & _ & E)|(Y & t' & _ & _ & Ht' & _ & E)]]]];
    rewrite E in Hget; simpl in Hget; try done.
  assert (t' = t) as -> by congruence.
  destruct (fetchone (get_basket_id rq, Y) t) as [r|] eqn:Hr; [|done].
  apply fetchone_Some in Hr as [Hin Hk].
  rewrite Forall_forall in Hall. destruct (Hall r Hin) as (P & Hp & Hb).
  assert (Hbr : basket_id r = get_basket_id rq)
    by (unfold key_of in Hk; by injection Hk).
  exists t, r, P. split_and!; try done. by rewrite Hb.
Qed.

(** X17. The store is opened only for a request that gets as far as its
    statement: a read or a write that is answered 400, 401 or 422 leaves
    the whole world as it was, the trace of the database with it. *)
Theorem client_errors_do_not_open_the_store (rq : get_request)
    (write : put_request) w :
  (http_status (fst (GET_charts rq w)) ∈ [400; 401; 422] ->
   snd (GET_charts rq w) = w) /\
  (http_status (fst (PUT_charts write w)) ∈ [400; 401; 422] ->
   snd (PUT_charts write w) = w).
Proof.
  assert (Hno200 : (200 : Z) ∉ [400; 401; 422])
    by (rewrite !not_elem_of_cons; split_and!; [done..|apply not_elem_of_nil]).
  assert (Hno404 : (404 : Z) ∉ [400; 401; 422])
    by (rewrite !not_elem_of_cons; split_and!; [done..|apply not_elem_of_nil]).
  assert (Hno500 : (500 : Z) ∉ [400; 401; 422])
    by (rewrite !not_elem_of_cons; split_and!; [done..|apply not_elem_of_nil]).
  split.
  - destruct (GET_charts_cases rq w)
      as [[_ ->]|[(Y & _ & _ & ->)|[(Y & _ & _ & _ & ->)|
          [(Y & t & _ & _ & _ & _ & ->)|(Y & t & _ & _ & _ & _ & ->)]]]];
      simpl; try done.
    unfold answer_of_row. destruct (fetchone _ t) as [r|]; simpl; [|done].
    destruct (json_loads (payload r)) as [v|]; simpl; [|done].
    by destruct (validate_ChartPayload v).
  - destruct (PUT_charts_cases write w)
      as [[_ ->]|(Y & P & _ & _ & [[_ ->]|[(_ & _ & ->)|[(_ & _ & _ & ->)|
          [(t & _ & _ & _ & _ & ->)|(t & _ & _ & _ & _ & ->)]]]])];
      simpl; done.
Qed.

(** X18. A year that does not fit 64 bits: where the table exists, a read
    and a write for such a year that pass validation and the gate are
    answered 500, the table is as it was, and the connection that was
    opened is closed without a commit. *)
Theorem wide_year_is_500 (rq : get_request) (write : put_request) Y P w t :
  chart_cache w = Some t -> fits_int64 Y = false ->
  (get_year rq = Some Y -> accepts (get_x_api_key rq) ->
   http_status (fst (GET_charts rq w)) = 500 /\
   GET_charts rq w =
   (Raise OverflowError,
    traced [Connect; Execute (SelectPayload (get_basket_id rq, Y)); Close] w)) /\
  (put_year write = Some Y ->
   put_body write ≫= validate_ChartPayload = Some P ->
   accepts (put_x_api_key write) -> basketId P = put_basket_id write ->
   http_status (fst (PUT_charts write w)) = 500 /\
   PUT_charts write w =
   (Raise OverflowError,
    traced [Connect;
            Execute (InsertOnConflictUpdate
                       (Row (put_basket_id write) Y (model_dump_json P) (clock_ms w)));
            Close] w)).
Proof.
  intros Ht Hfit. split.
  - intros Hy Ha.
    assert (E : GET_charts rq w =
                (Raise OverflowError,
                 traced [Connect; Execute (SelectPayload (get_basket_id rq, Y));
                         Close] w)).
    { unfold GET_charts. rewrite Hy. unfold bind.
      by rewrite (get_chart_overflow _ _ _ _ t). }
    by rewrite E.
  - intros Hy Hp Ha Hb.
    assert (E : PUT_charts write w =
                upsert_chart (put_basket_id write) Y P (put_x_api_key write) w).
    { unfold PUT_charts. by rewrite Hy, Hp. }
    rewrite E. by rewrite (upsert_chart_overflow _ _ _ _ _ t).
Qed.

End Further.

(** ** More properties of the round trip *)

Section FurtherRoundTrip.

Import Reference.

Context {env : Environment}.

(** X13. A write lasts until the key is written again: after a write of
    [P], whose prices are finite, to [(B, Y)], where [Y] fits 64 bits, and
    any run of requests of which none writes that key (a request for the
    key that is rejected does not write it), a read of the key with an
    accepted credential returns [P]. *)
Theorem write_survives_other_requests (B : string) (Y : Z)
    (P : ChartPayload decimal) (xw xr : option string) (w : world) (t : table)
    (es : list (event decimal)) :
  finite_prices P -> fits_int64 Y = true ->
  chart_cache w = Some t ->
  basketId P = B -> accepts xw -> accepts xr ->
  unwritten (lib := library) (B, Y) es
    (snd (upsert_chart (lib := library) B Y P xw w)) ->
  fst (GET_charts (lib := library)
         {| get_basket_id := B; get_year := Some Y; get_x_api_key := xr |}
         (run (lib := library) es
            (snd (upsert_chart (lib := library) B Y P xw w)))) = Return P.
Proof.
  intros Hfin Hfit Ht Hb Haw Har Hes.
  rewrite (read_after_run (lib := library) B Y P xw xr w t es) by done.
  by apply answer_of_dumps_finite.
Qed.

(** X16. A read returns only what was written for its basket: in any world
    the service reaches from a new database file, a payload that a read
    returns has the basketId of the path, its prices are finite, and its
    text is the text of a row of that basket. *)
Theorem reads_return_the_basket_asked_for (now_ms : Z)
    (es : list (event decimal)) (rq : get_request) (P : ChartPayload decimal) :
  fst (GET_charts (lib := library) rq
         (run (lib := library) es (started now_ms))) = Return P ->
  basketId P = get_basket_id rq /\ finite_prices P /\
  exists (t : table) (r : row),
    chart_cache (run (lib := library) es (started now_ms)) = Some t /\
    r ∈ t /\ basket_id r = get_basket_id rq /\ payload r = dumps P.
Proof.
  intros Hget.
  destruct (read_of_reachable (lib := library) now_ms es rq P Hget)
    as (t & r & P0 & Ht & Hin & Hk & Hp & Hb & Hans).
  destruct r as [b y text now]. simpl in Hk, Hp. subst text.
  apply (answer_of_dumps_only b y now) in Hans as [-> Hfin].
  split_and!; [done | done |].
  exists t, (Row b y (dumps P0) now). by split_and!.
Qed.

(** X19. A price that is not finite is lost: a payload that has one is
    valid and its write is answered 200, but the text that is stored has
    [null] in its place, and every read of the key that follows, before
    the key is written again, is answered 500. *)
Theorem infinite_price_is_unreadable (B : string) (Y : Z)
    (P : ChartPayload decimal) (xw xr : option string) (w : world) (t : table)
    (es : list (event decimal)) :
  ~ finite_prices P -> fits_int64 Y = true ->
  chart_cache w = Some t ->
  basketId P = B -> accepts xw -> accepts xr ->
  unwritten (lib := library) (B, Y) es
    (snd (upsert_chart (lib := library) B Y P xw w)) ->
  fst (upsert_chart (lib := library) B Y P xw w) =
    Return {| ok := true; updatedAtMs := clock_ms w |} /\
  loads (dumps P) ≠ Some (model_dump P) /\
  fst (GET_charts (lib := library)
         {| get_basket_id := B; get_year := Some Y; get_x_api_key := xr |}
         (run (lib := library) es
            (snd (upsert_chart (lib := library) B Y P xw w)))) =
  Raise ResponseValidationError.
Proof.
  intros Hinf Hfit Ht Hb Haw Har Hes. split_and!.
  - by rewrite (upsert_chart_accepted _ _ _ _ _ t).
  - intros Hl. apply Hinf.
    pose proof (validate_model_dump (lib := library) P reference_exact_scalars) as Hv.
    rewrite loads_dumps in Hl.
    assert (E : nullify (model_dump P) = model_dump P) by congruence.
    rewrite <- E in Hv.
    by apply validate_ChartPayload_nullify in Hv as [_ ?].
  - rewrite (read_after_run (lib := library) B Y P xw xr w t es) by done.
    by apply answer_of_dumps_infinite.
Qed.

End FurtherRoundTrip.

(** ** The further properties on the reference library *)

Section FurtherScenario.

Import Reference.

Local Abbreviation key_ok := (Some "s3cret").
Local Abbreviation w0 := (started 1700000000000).
Local Abbreviation get_tech5 Y x_api_key :=
  {| get_basket_id := "tech-5"; get_year := Some Y; get_x_api_key := x_api_key |}.
Local Abbreviation put_tech5 Y body :=
  {| put_basket_id := "tech-5"; put_year := Some Y;
     put_x_api_key := key_ok; put_body := Some body |}.

(** A start on a new file, then a write, a read, a read without a key and
    a write with a body that does not validate. *)
Lemma connections_are_released_witness :
  bracketed false
    (db_trace
       (run (lib := library) (env := locked)
          [Put (put_tech5 2024 (model_dump tech5));
           Get (get_tech5 2024 key_ok);
           Get (get_tech5 2024 None);
           Put (put_tech5 2024 PNone)]
          (snd (on_startup (fresh 1700000000000))))) = true.
Proof.
  apply (connections_are_released (lib := library) (env := locked)).
  reflexivity.
Defined.

(** A read and a write on a file on which [init_db] has not run. *)
Lemma requests_before_startup_fail_witness :
  fst (GET_charts (lib := library) (env := locked) (get_tech5 2024 key_ok)
         (fresh 1700000000000)) = Raise OperationalError /\
  fst (PUT_charts (lib := library) (env := locked)
         (put_tech5 2024 (model_dump tech5)) (fresh 1700000000000)) =
    Raise OperationalError /\
  http_status
    (fst (GET_charts (lib := library) (env := locked) (get_tech5 2024 key_ok)
            (fresh 1700000000000))) = 500 /\
  http_status
    (fst (PUT_charts (lib := library) (env := locked)
            (put_tech5 2024 (model_dump tech5)) (fresh 1700000000000))) = 500 /\
  chart_cache
    (snd (PUT_charts (lib := library) (env := locked)
            (put_tech5 2024 (model_dump tech5)) (fresh 1700000000000))) = None.
Proof.
  apply (requests_before_startup_fail (lib := library) (env := locked)
           (get_tech5 2024 key_ok) (put_tech5 2024 (model_dump tech5))
           2024 2024 tech5 (fresh 1700000000000)).
  - reflexivity.
  - reflexivity.
  - right. reflexivity.
  - reflexivity.
  - vm_compute. reflexivity.
  - right. reflexivity.
  - reflexivity.
Defined.

(** A payload without points is written over [tech5], with a clock that
    has gone back. *)
Lemma last_write_wins_witness :
  let none := {| basketId := "tech-5"; data := [] |} in
  let first := upsert_chart (lib := library) (env := locked)
                 "tech-5" 2024 tech5 key_ok w0 in
  let second := upsert_chart (lib := library) (env := locked)
                  "tech-5" 2024 none key_ok
                  (set_clock 1600000000000 (snd first)) in
  fst first = Return {| ok := true; updatedAtMs := 1700000000000 |} /\
  fst second = Return {| ok := true; updatedAtMs := 1600000000000 |} /\
  chart_cache (snd second) =
    chart_cache (snd (upsert_chart (lib := library) (env := locked)
                        "tech-5" 2024 none key_ok (set_clock 1600000000000 w0))) /\
  stored ("tech-5", 2024) (snd second) =
    Some (Row "tech-5" 2024 (dumps none) 1600000000000).
Proof.
  intros none.
  apply (last_write_wins (lib := library) (env := locked)
           "tech-5" 2024 tech5 none key_ok key_ok w0 [] 1600000000000).
  - reflexivity.
  - reflexivity.
  - reflexivity.
  - reflexivity.
  - right. reflexivity.
  - right. reflexivity.
Defined.


(** The first write on the new table. *)
Lemma first_write_adds_one_row_witness :
  let first := upsert_chart (lib := library) (env := locked)
                 "tech-5" 2024 tech5 key_ok w0 in
  fst first = Return {| ok := true; updatedAtMs := 1700000000000 |} /\
  chart_cache (snd first) =
    Some [Row "tech-5" 2024 (dumps tech5) 1700000000000].
Proof.
  apply (first_write_adds_one_row (lib := library) (env := locked)
           "tech-5" 2024 tech5 key_ok w0 []).
  - reflexivity.
  - reflexivity.
  - reflexivity.
  - right. reflexivity.
  - reflexivity.
Defined.

(** A body whose [data] is an object, sent without a key. *)
Lemma malformed_body_is_422_witness :
  PUT_charts (lib := library) (env := locked)
    {| put_basket_id := "tech-5"; put_year := Some 2024; put_x_api_key := None;
       put_body := Some (PDict [("basketId", PStr "tech-5"); ("data", PDict [])]) |}
    w0 = (Raise RequestValidationError, w0).
Proof.
  apply (malformed_body_is_422 (lib := library) (env := locked)).
  vm_compute. exact I.
Defined.

(** Between the write and the read: a write for 2025, a write of another
    basket, a write for the key that the gate rejects, a tick and a
    read. *)
Lemma write_survives_other_requests_witness :
  fst (GET_charts (lib := library) (env := locked) (get_tech5 2024 key_ok)
         (run (lib := library) (env := locked)
            [Put (put_tech5 2025 (model_dump tech5));
             Put {| put_basket_id := "energy-3"; put_year := Some 2024;
                    put_x_api_key := key_ok;
                    put_body :=
                      Some (model_dump {| basketId := "energy-3"; data := [] |}) |};
             Put {| put_basket_id := "tech-5"; put_year := Some 2024;
                    put_x_api_key := Some "guess";
                    put_body :=
                      Some (model_dump {| basketId := "tech-5"; data := [] |}) |};
             Tick 1700000000500;
             Get (get_tech5 2025 key_ok)]
            (snd (upsert_chart (lib := library) (env := locked)
                    "tech-5" 2024 tech5 key_ok w0)))) = Return tech5.
Proof.
  apply (write_survives_other_requests (env := locked)
           "tech-5" 2024 tech5 key_ok key_ok w0 []).
  - unfold finite_prices. simpl. constructor; [|constructor].
    apply map_Forall_to_list. vm_compute. repeat constructor.
  - reflexivity.
  - reflexivity.
  - reflexivity.
  - right. reflexivity.
  - right. reflexivity.
  - simpl. split_and!; try tauto.
    + intros [[_ H] _]. discriminate H.
    + intros [[H _] _]. discriminate H.
    + intros [_ [res H]]. vm_compute in H. discriminate H.
Defined.

(** On the reference library, after two writes and a tick, the read of
    2025 returns [tech5]. *)
Lemma reads_return_the_basket_asked_for_witness :
  let es := [Put (put_tech5 2024 (model_dump tech5)); Tick 1700000000500;
             Put (put_tech5 2025 (model_dump tech5))] in
  let w := run (lib := library) (env := locked) es w0 in
  fst (GET_charts (lib := library) (env := locked) (get_tech5 2025 key_ok) w) =
    Return tech5 /\
  basketId tech5 = "tech-5" /\ finite_prices tech5 /\
  exists (t : table) (r : row),
    chart_cache w = Some t /\ r ∈ t /\
    basket_id r = "tech-5" /\ payload r = dumps tech5.
Proof.
  intros es w.
  assert (H : fst (GET_charts (lib := library) (env := locked)
                     (get_tech5 2025 key_ok) w) = Return tech5)
    by (vm_compute; reflexivity).
  split; [exact H|].
  exact (reads_return_the_basket_asked_for (env := locked) 1700000000000 es
           (get_tech5 2025 key_ok) tech5 H).
Defined.

(** A read and a write for the year 2^63 on the table of the start. *)
Lemma wide_year_is_500_witness :
  let Y := 9223372036854775808 in
  fst (GET_charts (lib := library) (env := locked) (get_tech5 Y key_ok) w0) =
    Raise OverflowError /\
  fst (PUT_charts (lib := library) (env := locked)
         (put_tech5 Y (model_dump tech5)) w0) = Raise OverflowError /\
  chart_cache
    (snd (PUT_charts (lib := library) (env := locked)
            (put_tech5 Y (model_dump tech5)) w0)) = Some [].
Proof.
  intros Y.
  destruct (wide_year_is_500 (lib := library) (env := locked)
              (get_tech5 Y key_ok) (put_tech5 Y (model_dump tech5))
              Y tech5 w0 []) as (Hg & Hp).
  - reflexivity.
  - reflexivity.
  - destruct Hg as [_ Hg]; [reflexivity | right; reflexivity |].
    destruct Hp as [_ Hp];
      [reflexivity | vm_compute; reflexivity | right; reflexivity | reflexivity |].
    rewrite Hg, Hp. split; [reflexivity|]. split; reflexivity.
Defined.

(** The payload with a price beyond the largest double, written and read
    after a tick. *)
Lemma infinite_price_is_unreadable_witness :
  let written := upsert_chart (lib := library) (env := locked)
                   "tech-5" 2024 overflowing key_ok w0 in
  fst written = Return {| ok := true; updatedAtMs := 1700000000000 |} /\
  loads (dumps overflowing) ≠ Some (model_dump overflowing) /\
  fst (GET_charts (lib := library) (env := locked) (get_tech5 2024 key_ok)
         (run (lib := library) (env := locked) [Tick 1700000000500]
            (snd written))) = Raise ResponseValidationError.
Proof.
  apply (infinite_price_is_unreadable (env := locked)
           "tech-5" 2024 overflowing key_ok key_ok w0 [] [Tick 1700000000500]).
  - unfold finite_prices. simpl. intros H.
    apply Forall_cons in H as [H _]. apply map_Forall_to_list in H.
    vm_compute in H. apply Forall_cons in H as [H _]. discriminate H.
  - reflexivity.
  - reflexivity.
  - reflexivity.
  - right. reflexivity.
  - right. reflexivity.
  - simpl. tauto.
Defined.

(** A read without its year and a write of another basket's payload. *)
Lemma client_errors_do_not_open_the_store_witness :
  let other := {| basketId := "energy-3"; data := data tech5 |} in
  snd (GET_charts (lib := library) (env := locked)
         {| get_basket_id := "tech-5"; get_year := None;
            get_x_api_key := key_ok |} w0) = w0 /\
  snd (PUT_charts (lib := library) (env := locked)
         (put_tech5 2024 (model_dump other)) w0) = w0.
Proof.
  intros other.
  destruct (client_errors_do_not_open_the_store (lib := library) (env := locked)
              {| get_basket_id := "tech-5"; get_year := None;
                 get_x_api_key := key_ok |}
              (put_tech5 2024 (model_dump other)) w0) as [Hg Hp].
  split.
  - apply Hg. vm_compute. set_solver.
  - apply Hp. vm_compute. set_solver.
Defined.

End FurtherScenario.
